(** * Hadith API: what the handlers answer and what they leave in the store

    A shallow embedding of the request handlers of
    [src/routers/hadiths.py], [src/routers/favorites.py] and
    [src/routers/collections.py] over the tables declared in
    [src/database.py], of the route table of [simple_server.py] and of
    the grade normalizer of [scripts/fetch_sunnah_data.py].

    - Tables are lists of rows in scan order.  A select of one table
      under comparisons of its columns is read as a filter of that
      table.
    - The selects over joins carry select lists with SQL functions;
      they are kept as statements, and the engine runs or refuses
      them.  The engine is PostgreSQL, the one [config.py] names; of
      it the handlers are given no more than the interface [Engine].
    - A handler is a computation in a state-and-exception monad over the
      [World]: the relational store, the state of the process-wide
      [random] generator, and the calendar day [date.today()] reports.
    - [HTTPException] is the monad's error; an exception no handler
      catches is [Unhandled], which the framework answers with 500.
    - Text is ASCII: [strptime], [lower] and [strip] act on bytes below
      128.

    Part I is the program.  Part II names what the properties speak
    about.  Part III proves the properties the specification states,
    Part IV further properties of the same code, and Part V runs them
    on concrete requests. *)

From Stdlib Require Import ZArith List String Ascii Bool Lia.
From Stdlib Require Import Permutation Sorted.
Import ListNotations.

Local Open Scope string_scope.
Local Open Scope list_scope.
Local Open Scope Z_scope.

(* ================================================================= *)
(** * Part I: the program *)

(* ================================================================= *)
(** ** Data model ([models.py], [database.py]) *)

(** [class HadithGrade(str, Enum)]; the [grade] column stores the value. *)
Inductive HadithGrade : Type := SAHIH | HASAN | DAIF | MAWDU | UNKNOWN.

Definition grade_value (g : HadithGrade) : string :=
  match g with
  | SAHIH => "Sahih"
  | HASAN => "Hasan"
  | DAIF => "Da'if"
  | MAWDU => "Mawdu'"
  | UNKNOWN => "Unknown"
  end.

(** [collections_table] *)
Record Collection : Type := mkCollection {
  c_id : string;
  c_name_en : string;
  c_name_ar : string
}.

(** [chapters_table] *)
Record Chapter : Type := mkChapter {
  ch_id : string;
  ch_collection_id : string;
  ch_chapter_number : Z;
  ch_title_en : string;
  ch_title_ar : string
}.

(** [hadiths_table] *)
Record Hadith : Type := mkHadith {
  h_id : string;
  h_collection_id : string;
  h_chapter_id : string;
  h_hadith_number : Z;
  h_arabic_text : string;
  h_english_text : string;
  h_narrator : string;
  h_grade : HadithGrade
}.

(** [favorites_table]; [added_at] is filled by the store and named only
    in the ordering of [get_user_favorites]. *)
Record Favorite : Type := mkFavorite {
  f_id : Z;
  f_user_id : Z;
  f_hadith_id : string;
  f_notes : option string
}.

(** The tables, and the sequence behind the autoincrement key
    [favorites.id]: [favorites_id_seq] is the last value it gave out.
    A value given out is never given again, whatever became of the
    row. *)
Record DB : Type := mkDB {
  collections : list Collection;
  chapters : list Chapter;
  hadiths : list Hadith;
  favorites : list Favorite;
  favorites_id_seq : Z
}.

Definition with_favorites (d : DB) (fs : list Favorite) : DB :=
  mkDB (collections d) (chapters d) (hadiths d) fs (favorites_id_seq d).

(** [class HadithWithDetails(Hadith)] *)
Record HadithWithDetails : Type := mkDetails {
  hd : Hadith;
  collection_name_en : string;
  collection_name_ar : string;
  chapter_title_en : string;
  chapter_title_ar : string;
  chapter_number : Z;
  is_favorite : bool
}.

(** [class FavoriteWithHadith(Favorite)] *)
Record FavoriteWithHadith : Type := mkFavoriteWithHadith {
  fav : Favorite;
  hadith : HadithWithDetails
}.

Record PaginationMeta : Type := mkMeta {
  page : Z;
  page_size : Z;
  total_count : Z;
  total_pages : Z;
  has_next : bool;
  has_prev : bool
}.

(** [class HadithSearchParams] *)
Record HadithSearchParams : Type := mkSearch {
  sp_q : option string;
  sp_collection_id : option string;
  sp_chapter_id : option string;
  sp_grade : option HadithGrade;
  sp_narrator : option string;
  sp_tags : option (list string);
  sp_page : Z;
  sp_page_size : Z
}.

(* ================================================================= *)
(** ** Calendar dates ([datetime.date]) *)

Module Calendar.

Record date : Type := mkDate { year : Z; month : Z; day : Z }.

Definition is_leap (y : Z) : bool :=
  (y mod 4 =? 0) && (negb (y mod 100 =? 0) || (y mod 400 =? 0)).

Definition DAYS_IN_MONTH : list Z :=
  [0; 31; 28; 31; 30; 31; 30; 31; 31; 30; 31; 30; 31].

Definition DAYS_BEFORE_MONTH : list Z :=
  [0; 0; 31; 59; 90; 120; 151; 181; 212; 243; 273; 304; 334].

Definition days_before_year (y : Z) : Z :=
  let y1 := y - 1 in y1 * 365 + y1 / 4 - y1 / 100 + y1 / 400.

Definition days_in_month (y m : Z) : Z :=
  if (m =? 2) && is_leap y then 29
  else nth (Z.to_nat m) DAYS_IN_MONTH 0.

Definition days_before_month (y m : Z) : Z :=
  nth (Z.to_nat m) DAYS_BEFORE_MONTH 0
  + (if (2 <? m) && is_leap y then 1 else 0).

(** [date.toordinal()]: the proleptic Gregorian ordinal, 0001-01-01 is 1. *)
Definition toordinal (d : date) : Z :=
  days_before_year (year d) + days_before_month (year d) (month d) + day d.

(** The [date] constructor; [None] is its [ValueError]. *)
Definition make_date (y m d : Z) : option date :=
  if (1 <=? y) && (y <=? 9999) && (1 <=? m) && (m <=? 12)
     && (1 <=? d) && (d <=? days_in_month y m)
  then Some (mkDate y m d) else None.

Definition is_digit (c : ascii) : bool :=
  let n := nat_of_ascii c in (48 <=? n)%nat && (n <=? 57)%nat.

Definition digit (c : ascii) : Z := Z.of_nat (nat_of_ascii c) - 48.

Definition in_range (lo hi c : ascii) : bool :=
  (nat_of_ascii lo <=? nat_of_ascii c)%nat
  && (nat_of_ascii c <=? nat_of_ascii hi)%nat.

(** [%Y] is the pattern [\d\d\d\d]. *)
Definition directive_Y (s : list ascii) : option (Z * list ascii) :=
  match s with
  | a :: b :: c :: d :: rest =>
      if is_digit a && is_digit b && is_digit c && is_digit d
      then Some (((digit a * 10 + digit b) * 10 + digit c) * 10 + digit d, rest)
      else None
  | _ => None
  end.

(** [%m] is [1[0-2]|0[1-9]|[1-9]]; the alternatives are returned in the
    order the matcher tries them. *)
Definition directive_m (s : list ascii) : list (Z * list ascii) :=
  (match s with
   | a :: b :: rest =>
       if Ascii.eqb a "1" && in_range "0" "2" b then [(10 + digit b, rest)]
       else if Ascii.eqb a "0" && in_range "1" "9" b then [(digit b, rest)]
       else []
   | _ => []
   end)
  ++
  (match s with
   | a :: rest => if in_range "1" "9" a then [(digit a, rest)] else []
   | _ => []
   end).

(** [%d] is [3[0-1]|[1-2]\d|0[1-9]|[1-9]| [1-9]]. *)
Definition directive_d (s : list ascii) : list (Z * list ascii) :=
  (match s with
   | a :: b :: rest =>
       if Ascii.eqb a "3" && in_range "0" "1" b then [(30 + digit b, rest)]
       else if in_range "1" "2" a && is_digit b
            then [(digit a * 10 + digit b, rest)]
       else if Ascii.eqb a "0" && in_range "1" "9" b then [(digit b, rest)]
       else []
   | _ => []
   end)
  ++
  (match s with
   | a :: rest => if in_range "1" "9" a then [(digit a, rest)] else []
   | _ => []
   end)
  ++
  (match s with
   | a :: b :: rest =>
       if Ascii.eqb a " " && in_range "1" "9" b then [(digit b, rest)] else []
   | _ => []
   end).

Definition literal (c : ascii) (s : list ascii) : option (list ascii) :=
  match s with
  | a :: rest => if Ascii.eqb a c then Some rest else None
  | [] => None
  end.

Fixpoint first_some {A B : Type} (f : A -> option B) (l : list A) : option B :=
  match l with
  | [] => None
  | x :: l' => match f x with Some y => Some y | None => first_some f l' end
  end.

(** [datetime.strptime(s, "%Y-%m-%d").date()] on ASCII text; [None] is
    the [ValueError] raised when the pattern does not match, when input
    is left over, or when the fields are no calendar date.  Python's
    [\d] also accepts the decimal digits of other scripts; text with a
    byte above 127 is outside this function, and the properties that
    depend on a refusal ask for [ascii_text]. *)
Definition strptime (s : string) : option date :=
  match directive_Y (list_ascii_of_string s) with
  | None => None
  | Some (y, s1) =>
    match literal "-" s1 with
    | None => None
    | Some s2 =>
      let matched :=
        first_some
          (fun '(m, s3) =>
             match literal "-" s3 with
             | None => None
             | Some s4 =>
                 match directive_d s4 with
                 | [] => None
                 | (d, s5) :: _ => Some (m, d, s5)
                 end
             end)
          (directive_m s2) in
      match matched with
      | Some (m, d, []) => make_date y m d
      | _ => None
      end
    end
  end.

End Calendar.

(* ================================================================= *)
(** ** The process-wide pseudo-random generator ([import random]) *)

(** The handlers call [random.seed] and [random.randint] on the module's
    single hidden generator.  Its algorithm belongs to the language
    runtime; the handlers rely on no more than this interface:
    [seed n] is the state after [random.seed(n)], a function of [n]
    alone, and [randint a b g] draws from state [g] a value in [[a, b]]
    and leaves the generator in a new state. *)
Class PRNG : Type := {
  rng_state : Type;
  seed : Z -> rng_state;
  randint : Z -> Z -> rng_state -> Z * rng_state;
  randint_range :
    forall a b g, a <= b -> a <= fst (randint a b g) <= b
}.


(* ================================================================= *)
(** ** SQL statements, as the routers build them *)

Module SQL.

#[local] Set Warnings "-register-all".

(** Column expressions and conditions. *)
Inductive Expr : Type :=
| Col (table column : string)
| Str (s : string)
| Int (z : Z)
| Bool (b : bool)
| Null
| Func (name : string) (args : list Expr)   (* [func.name(args)] *)
| Eq (a b : Expr)
| Is (a b : Expr)
| IsNot (a b : Expr)
| ILike (a : Expr) (pattern : string)
| And_ (es : list Expr)
| Or_ (es : list Expr)
| Desc (a : Expr)
| Label (a : Expr) (name : string).

Record Join : Type := mkJoin {
  outer : bool;
  joined : string;
  on_clause : Expr
}.

(** A select, and what it selects from: a table with its joins, or
    another select under an alias. *)
Inductive Statement : Type :=
| mkSelect (columns : list Expr) (from : Source) (whereclause : list Expr)
    (group_by : list Expr) (order_by : list Expr) (limit offset : option Z)
with Source : Type :=
| Tables (base : string) (joins : list Join)
| Alias (s : Statement).

(** [select(columns).select_from(from)] *)
Definition select (columns : list Expr) (from : Source) : Statement :=
  mkSelect columns from [] [] [] None None.

(** [s.where(e)]: one more condition. *)
Definition where_ (s : Statement) (e : Expr) : Statement :=
  match s with
  | mkSelect c f w g o l k => mkSelect c f (w ++ [e]) g o l k
  end.

(** [s.order_by(e)] *)
Definition order_by (s : Statement) (e : Expr) : Statement :=
  match s with
  | mkSelect c f w g o l k => mkSelect c f w g (o ++ [e]) l k
  end.

(** [s.limit(n)] *)
Definition limit (s : Statement) (n : Z) : Statement :=
  match s with
  | mkSelect c f w g o _ k => mkSelect c f w g o (Some n) k
  end.

(** [s.offset(n)] *)
Definition offset (s : Statement) (n : Z) : Statement :=
  match s with
  | mkSelect c f w g o l _ => mkSelect c f w g o l (Some n)
  end.

(** [select(func.count()).select_from(s.alias())] *)
Definition count_of (s : Statement) : Statement :=
  select [Func "count" []] (Alias s).

(** The SQL functions an expression calls. *)
Fixpoint calls (e : Expr) : list string :=
  match e with
  | Func f args => f :: flat_map calls args
  | Eq a b | Is a b | IsNot a b => calls a ++ calls b
  | ILike a _ | Desc a | Label a _ => calls a
  | And_ es | Or_ es => flat_map calls es
  | Col _ _ | Str _ | Int _ | Bool _ | Null => []
  end.

(** Among the functions the routers name, those the engine has, and
    those of them that are aggregates. *)
Definition engine_functions : list string :=
  ["count"; "coalesce"; "bool_or"; "json_extract_path_text"].

Definition aggregates : list string := ["count"; "bool_or"].

Definition named (names : list string) (f : string) : bool :=
  existsb (String.eqb f) names.

(** The columns an expression reads outside every aggregate. *)
Fixpoint bare_columns (e : Expr) : list Expr :=
  match e with
  | Col t c => [Col t c]
  | Func f args =>
      if named aggregates f then [] else flat_map bare_columns args
  | Eq a b | Is a b | IsNot a b => bare_columns a ++ bare_columns b
  | ILike a _ | Desc a | Label a _ => bare_columns a
  | And_ es | Or_ es => flat_map bare_columns es
  | Str _ | Int _ | Bool _ | Null => []
  end.

Definition same_column (a b : Expr) : bool :=
  match a, b with
  | Col t c, Col t' c' => String.eqb t t' && String.eqb c c'
  | _, _ => false
  end.

(** The select list or the conditions call a function the engine does
    not have. *)
Definition unknown_function (columns conditions : list Expr) : bool :=
  existsb (fun f => negb (named engine_functions f))
          (flat_map calls (columns ++ conditions)).

(** The select list holds an aggregate beside a column that is neither
    inside an aggregate nor named by [GROUP BY]. *)
Definition ungrouped_column (columns groups : list Expr) : bool :=
  existsb (named aggregates) (flat_map calls columns)
  && existsb (fun c => negb (existsb (same_column c) groups))
             (flat_map bare_columns columns).

(** What the engine refuses before it reads a row: a statement that is
    one of the two above, or that selects from such a statement. *)
Fixpoint refused (s : Statement) : bool :=
  match s with
  | mkSelect columns from conditions groups _ _ _ =>
      unknown_function columns conditions
      || ungrouped_column columns groups
      || match from with
         | Tables _ _ => false
         | Alias s' => refused s'
         end
  end.

End SQL.

(* ================================================================= *)
(** ** The database engine *)

(** The exceptions a handler can meet besides [HTTPException]. *)
Inductive Exc : Type :=
| IntegrityError            (* [sqlalchemy.exc.IntegrityError] *)
| ValidationError           (* pydantic: a model refuses its data *)
| ResponseValidationError   (* the route's [response_model] refuses *)
| SQLError.                 (* any other error of SQLAlchemy or the driver *)

(** What the handlers are given of the engine and its driver.
    - [execute s d] is the rows of statement [s] on store [d], and
      [execute_scalar s d] its first value, for a counting select;
      [None] is the error the driver raises when the engine does not
      run the statement.  A statement [SQL.refused] names is never run.
    - A row of a joined select is read through the pydantic models:
      [model_validate] is [HadithWithDetails.model_validate(row)] and
      [row_favorite] the favorites columns of the row.
    - [sort_by key rows] is [ORDER BY key] on one table: the rows in
      ascending order of the key.  Nothing is promised on the order of
      rows with equal keys.
    - [on_violation] is the exception the driver raises when an insert
      breaks a constraint. *)
Class Engine : Type := {
  Row : Type;
  execute : SQL.Statement -> DB -> option (list Row);
  execute_scalar : SQL.Statement -> DB -> option Z;
  execute_refused :
    forall s d, SQL.refused s = true -> execute s d = None;
  execute_scalar_refused :
    forall s d, SQL.refused s = true -> execute_scalar s d = None;
  model_validate : Row -> HadithWithDetails;
  row_favorite : Row -> Favorite;
  sort_by : forall A : Type, (A -> Z) -> list A -> list A;
  sort_by_perm :
    forall (A : Type) (key : A -> Z) (l : list A),
      Permutation (sort_by A key l) l;
  sort_by_sorted :
    forall (A : Type) (key : A -> Z) (l : list A),
      StronglySorted (fun x y => key x <= key y) (sort_by A key l);
  on_violation : Exc
}.

Arguments sort_by {Engine A} key l.

(** The largest [OFFSET] or [LIMIT] the driver can send: they are
    64-bit integers. *)
Definition max_bigint : Z := 9223372036854775807.

(* ================================================================= *)
(** ** The relational store *)

Module Store.

(** [database.fetch_one]: the first row of the result, or [None]. *)
Definition fetch_one {A : Type} (rows : list A) : option A := hd_error rows.

(** [select(func.count())] over one table. *)
Definition count {A : Type} (rows : list A) : Z := Z.of_nat (List.length rows).

(** [.limit(n).offset(k)] on rows already in order: skip [k], keep [n]. *)
Definition window {A : Type} (n k : Z) (rows : list A) : list A :=
  firstn (Z.to_nat n) (skipn (Z.to_nat k) rows).

Definition lower (c : ascii) : ascii :=
  let n := nat_of_ascii c in
  if (65 <=? n)%nat && (n <=? 90)%nat then ascii_of_nat (n + 32) else c.

(** The unique constraint [UniqueConstraint("user_id", "hadith_id")]. *)
Definition same_pair (u : Z) (h : string) (f : Favorite) : bool :=
  (f_user_id f =? u) && String.eqb (f_hadith_id f) h.

(** [insert(favorites_table).values(user_id=u, hadith_id=h, notes=n)].
    The key is the next value of the sequence, which is used up whether
    or not the row goes in.  The row goes in unless its pair or its key
    is already in the table; [None] is the constraint violation. *)
Definition insert_favorite (u : Z) (h : string) (n : option string)
    (d : DB) : DB * option Z :=
  let k := favorites_id_seq d + 1 in
  if existsb (same_pair u h) (favorites d)
     || existsb (fun f => f_id f =? k) (favorites d)
  then (mkDB (collections d) (chapters d) (hadiths d) (favorites d) k, None)
  else (mkDB (collections d) (chapters d) (hadiths d)
             (favorites d ++ [mkFavorite k u h n]) k,
        Some k).

(** [delete(favorites_table).where(cond)] *)
Definition delete_where (cond : Favorite -> bool) (fs : list Favorite)
    : list Favorite :=
  filter (fun f => negb (cond f)) fs.

(** [update(favorites_table).where(cond).values(notes=n)] *)
Definition update_notes (cond : Favorite -> bool) (n : option string)
    (fs : list Favorite) : list Favorite :=
  map (fun f => if cond f
                then mkFavorite (f_id f) (f_user_id f) (f_hadith_id f) n
                else f) fs.

End Store.

(* ================================================================= *)
(** ** Handlers as computations over the world *)

Inductive Response (A : Type) : Type :=
| Ok (a : A)
| HTTPException (status_code : Z) (detail : string)
| Unhandled (e : Exc).

Arguments Ok {A} a.
Arguments HTTPException {A} status_code detail.
Arguments Unhandled {A} e.

Section Handlers.

Context {G : PRNG} {E : Engine}.

(** What a request can read and change: the store behind [database],
    the hidden generator of the [random] module, and the day
    [date.today()] returns. *)
Record World : Type := mkWorld {
  database : DB;
  random : rng_state;
  today : Calendar.date
}.

(** A run of a handler is one request carried out from the world it
    meets, with no other request scheduled at its awaits.  Requests
    served one after the other are runs in sequence; what overlapping
    requests do to one another is not stated here. *)
Definition M (A : Type) : Type := World -> Response A * World.

Definition ret {A : Type} (a : A) : M A := fun w => (Ok a, w).

Definition bind {A B : Type} (c : M A) (k : A -> M B) : M B :=
  fun w =>
    match c w with
    | (Ok a, w') => k a w'
    | (HTTPException s d, w') => (HTTPException s d, w')
    | (Unhandled e, w') => (Unhandled e, w')
    end.

(** [raise HTTPException(status_code=s, detail=d)] *)
Definition raise {A : Type} (s : Z) (d : string) : M A :=
  fun w => (HTTPException s d, w).

Definition throw {A : Type} (e : Exc) : M A := fun w => (Unhandled e, w).

(** [try: c  except IntegrityError: h] *)
Definition except_IntegrityError {A : Type} (c h : M A) : M A :=
  fun w =>
    match c w with
    | (Unhandled IntegrityError, w') => h w'
    | r => r
    end.

Notation "x <- c ;; k" := (bind c (fun x => k))
  (at level 61, c at next level, right associativity).
Notation "c ;; k" := (bind c (fun _ => k))
  (at level 61, right associativity).

(** *** Reading and writing the store *)

(** A select of one table, read as the rows it keeps. *)
Definition Query (A : Type) : Type := DB -> list A.

Definition fetch_all {A : Type} (q : Query A) : M (list A) :=
  fun w => (Ok (q (database w)), w).

Definition fetch_one {A : Type} (q : Query A) : M (option A) :=
  fun w => (Ok (Store.fetch_one (q (database w))), w).

(** [database.fetch_val(select(func.count()).select_from(t).where(..))] *)
Definition fetch_count {A : Type} (q : Query A) : M Z :=
  fun w => (Ok (Store.count (q (database w))), w).

(** [q.order_by(key)] *)
Definition order_by {A : Type} (key : A -> Z) (q : Query A) : Query A :=
  fun d => sort_by key (q d).

(** [database.fetch_all(q.limit(n).offset(k))]: the driver refuses a
    limit or an offset beyond 64 bits. *)
Definition fetch_page {A : Type} (n k : Z) (q : Query A) : M (list A) :=
  fun w =>
    if (n <=? max_bigint) && (k <=? max_bigint)
    then (Ok (Store.window n k (q (database w))), w)
    else (Unhandled SQLError, w).

(** [database.fetch_val], [fetch_all] and [fetch_one] of a statement. *)
Definition fetch_val (s : SQL.Statement) : M Z :=
  fun w =>
    match execute_scalar s (database w) with
    | Some n => (Ok n, w)
    | None => (Unhandled SQLError, w)
    end.

Definition fetch_rows (s : SQL.Statement) : M (list Row) :=
  fun w =>
    match execute s (database w) with
    | Some rows => (Ok rows, w)
    | None => (Unhandled SQLError, w)
    end.

Definition fetch_row (s : SQL.Statement) : M (option Row) :=
  fun w =>
    match execute s (database w) with
    | Some rows => (Ok (Store.fetch_one rows), w)
    | None => (Unhandled SQLError, w)
    end.

Definition set_database (d : DB) (w : World) : World :=
  mkWorld d (random w) (today w).

Definition set_favorites (fs : list Favorite) (w : World) : World :=
  mkWorld (with_favorites (database w) fs) (random w) (today w).

(** [database.execute(insert(favorites_table).values(...))] *)
Definition execute_insert (u : Z) (h : string) (n : option string) : M Z :=
  fun w =>
    match Store.insert_favorite u h n (database w) with
    | (d, None) => (Unhandled on_violation, set_database d w)
    | (d, Some k) => (Ok k, set_database d w)
    end.

(** [database.execute(delete(favorites_table).where(cond))] *)
Definition execute_delete (cond : Favorite -> bool) : M unit :=
  fun w =>
    (Ok tt, set_favorites (Store.delete_where cond (favorites (database w))) w).

(** [database.execute(update(favorites_table).where(cond).values(notes=n))] *)
Definition execute_update (cond : Favorite -> bool) (n : option string)
    : M unit :=
  fun w =>
    (Ok tt,
     set_favorites (Store.update_notes cond n (favorites (database w))) w).

(** *** The generator and the clock *)

(** [random.seed(n)] *)
Definition random_seed (n : Z) : M unit :=
  fun w => (Ok tt, mkWorld (database w) (seed n) (today w)).

(** [random.randint(a, b)] *)
Definition random_randint (a b : Z) : M Z :=
  fun w =>
    let r := randint a b (random w) in
    (Ok (fst r), mkWorld (database w) (snd r) (today w)).

(** [date.today()] *)
Definition date_today : M Calendar.date := fun w => (Ok (today w), w).

(** The bounds declared on a [Query(...)] parameter; the framework
    answers 422 before the handler body runs. *)
Definition validate (ok : bool) : M unit :=
  if ok then ret tt else raise 422 "validation error".

(* ----------------------------------------------------------------- *)
(** *** [routers/hadiths.py] *)

(** Truth value of an optional string: [None] and [""] are false. *)
Definition truthy (o : option string) : option string :=
  match o with
  | Some s => if String.eqb s "" then None else Some s
  | None => None
  end.

(** Truth value of an optional user id: [None] and [0] are false. *)
Definition truthy_id (o : option Z) : option Z :=
  match o with
  | Some u => if u =? 0 then None else Some u
  | None => None
  end.

(** The columns of [hadiths_table], for [hasattr(hadiths_table.c, key)]. *)
Definition hadiths_columns : list string :=
  ["id"; "collection_id"; "chapter_id"; "hadith_number"; "arabic_text";
   "english_text"; "narrator"; "grade"; "grade_details"; "refs"; "tags";
   "source_url"; "created_at"; "updated_at"].

(** The select list of [build_hadith_query]: nineteen columns and
    [coalesce(bool_or(favorites.id IS NOT NULL), false) AS is_favorite]. *)
Definition hadith_select_list : list SQL.Expr :=
  [SQL.Col "hadiths" "id";
   SQL.Col "hadiths" "hadith_number";
   SQL.Col "hadiths" "arabic_text";
   SQL.Col "hadiths" "english_text";
   SQL.Col "hadiths" "narrator";
   SQL.Col "hadiths" "grade";
   SQL.Col "hadiths" "grade_details";
   SQL.Col "hadiths" "refs";
   SQL.Col "hadiths" "tags";
   SQL.Col "hadiths" "source_url";
   SQL.Col "hadiths" "created_at";
   SQL.Col "hadiths" "updated_at";
   SQL.Col "hadiths" "collection_id";
   SQL.Col "hadiths" "chapter_id";
   SQL.Label (SQL.Col "collections" "name_en") "collection_name_en";
   SQL.Label (SQL.Col "collections" "name_ar") "collection_name_ar";
   SQL.Label (SQL.Col "chapters" "title_en") "chapter_title_en";
   SQL.Label (SQL.Col "chapters" "title_ar") "chapter_title_ar";
   SQL.Col "chapters" "chapter_number";
   SQL.Label
     (SQL.Func "coalesce"
        [SQL.Func "bool_or"
           [SQL.IsNot (SQL.Col "favorites" "id") SQL.Null];
         SQL.Bool false])
     "is_favorite"].

(** hadiths JOIN collections JOIN chapters LEFT OUTER JOIN favorites;
    the last [ON] clause is
    [and_(favorites.hadith_id == hadiths.id, favorites.user_id == user_id)
     if user_id else False]. *)
Definition hadith_tables (user_id : option Z) : SQL.Source :=
  SQL.Tables "hadiths"
    [SQL.mkJoin false "collections"
       (SQL.Eq (SQL.Col "hadiths" "collection_id") (SQL.Col "collections" "id"));
     SQL.mkJoin false "chapters"
       (SQL.Eq (SQL.Col "hadiths" "chapter_id") (SQL.Col "chapters" "id"));
     SQL.mkJoin true "favorites"
       match truthy_id user_id with
       | Some u =>
           SQL.And_
             [SQL.Eq (SQL.Col "favorites" "hadith_id") (SQL.Col "hadiths" "id");
              SQL.Eq (SQL.Col "favorites" "user_id") (SQL.Int u)]
       | None => SQL.Bool false
       end].

(** [for key, value in base_filters.items(): if hasattr(...)] *)
Definition base_conditions (base_filters : list (string * string))
    : list SQL.Expr :=
  flat_map (fun kv =>
    if existsb (String.eqb (fst kv)) hadiths_columns
    then [SQL.Eq (SQL.Col "hadiths" (fst kv)) (SQL.Str (snd kv))]
    else [])
  base_filters.

(** [f"%{s}%"] *)
Definition contains (s : string) : string := "%" ++ s ++ "%".

Definition search_conditions (search_params : option HadithSearchParams)
    : list SQL.Expr :=
  match search_params with
  | None => []
  | Some sp =>
      (match truthy (sp_collection_id sp) with
       | Some c => [SQL.Eq (SQL.Col "hadiths" "collection_id") (SQL.Str c)]
       | None => []
       end)
      ++
      (match truthy (sp_chapter_id sp) with
       | Some c => [SQL.Eq (SQL.Col "hadiths" "chapter_id") (SQL.Str c)]
       | None => []
       end)
      ++
      (match sp_grade sp with
       | Some g => [SQL.Eq (SQL.Col "hadiths" "grade") (SQL.Str (grade_value g))]
       | None => []
       end)
      ++
      (match truthy (sp_narrator sp) with
       | Some n => [SQL.ILike (SQL.Col "hadiths" "narrator") (contains n)]
       | None => []
       end)
      ++
      (match truthy (sp_q sp) with
       | Some q =>
           [SQL.Or_
              [SQL.ILike (SQL.Col "hadiths" "english_text") (contains q);
               SQL.ILike (SQL.Col "hadiths" "arabic_text") (contains q);
               SQL.ILike (SQL.Col "hadiths" "narrator") (contains q);
               SQL.ILike (SQL.Col "collections" "name_en") (contains q);
               SQL.ILike (SQL.Col "chapters" "title_en") (contains q)]]
       | None => []
       end)
      ++
      (match sp_tags sp with
       | Some (tag :: tags) =>
           map (fun t =>
                  SQL.IsNot
                    (SQL.Func "json_extract_path_text"
                       [SQL.Col "hadiths" "tags"; SQL.Str t])
                    SQL.Null)
               (tag :: tags)
       | _ => []
       end)
  end.

(** No [group_by] is ever called on the select: its [GROUP BY] is
    empty. *)
Definition build_hadith_query (search_params : option HadithSearchParams)
    (user_id : option Z) (base_filters : list (string * string))
    : SQL.Statement :=
  let query := SQL.select hadith_select_list (hadith_tables user_id) in
  let conditions :=
    base_conditions base_filters ++ search_conditions search_params in
  match conditions with
  | [] => query
  | _ :: _ => SQL.where_ query (SQL.And_ conditions)
  end.

Definition by_hadith_number : SQL.Expr := SQL.Col "hadiths" "hadith_number".

Record HadithsResponse : Type := mkHadithsResponse {
  data : list HadithWithDetails;
  meta : option PaginationMeta
}.

Record DailyHadithResponse : Type := mkDaily {
  daily_message : string;
  daily_data : HadithWithDetails;
  daily_date : Calendar.date
}.

Record HadithResponse : Type := mkHadithResponse {
  hr_message : option string;
  hr_data : HadithWithDetails
}.

(** [GET /hadiths/] *)
Definition get_hadiths (q collection_id chapter_id : option string)
    (grade : option HadithGrade) (narrator : option string)
    (page page_size : Z) (current_user : option Z) : M HadithsResponse :=
  validate ((1 <=? page) && (1 <=? page_size) && (page_size <=? 100)) ;;
  let search_params :=
    mkSearch q collection_id chapter_id grade narrator None page page_size in
  let user_id := current_user in
  let base_query := build_hadith_query (Some search_params) user_id [] in
  let count_query := SQL.count_of base_query in
  total_count <- fetch_val count_query ;;
  let offset := (page - 1) * page_size in
  let query :=
    SQL.offset (SQL.limit (SQL.order_by base_query by_hadith_number)
                  page_size) offset in
  hadiths <- fetch_rows query ;;
  let total_pages := (total_count + page_size - 1) / page_size in
  let has_next := page <? total_pages in
  let has_prev := 1 <? page in
  let meta :=
    mkMeta page page_size total_count total_pages has_next has_prev in
  let hadith_objects := map model_validate hadiths in
  ret (mkHadithsResponse hadith_objects (Some meta)).

(** [GET /hadiths/collection/{collection_id}] *)
Definition get_hadiths_by_collection (collection_id : string)
    (page page_size : Z) (grade : option HadithGrade)
    (current_user : option Z) : M HadithsResponse :=
  validate ((1 <=? page) && (1 <=? page_size) && (page_size <=? 100)) ;;
  collection <- fetch_one (fun d =>
    filter (fun c => String.eqb (c_id c) collection_id) (collections d)) ;;
  match collection with
  | None => raise 404 "Collection not found"
  | Some _ =>
      let search_params :=
        mkSearch None (Some collection_id) None grade None None
                 page page_size in
      let user_id := current_user in
      let base_query := build_hadith_query (Some search_params) user_id [] in
      let count_query := SQL.count_of base_query in
      total_count <- fetch_val count_query ;;
      let offset := (page - 1) * page_size in
      let query :=
        SQL.offset (SQL.limit (SQL.order_by base_query by_hadith_number)
                      page_size) offset in
      hadiths <- fetch_rows query ;;
      let total_pages := (total_count + page_size - 1) / page_size in
      let has_next := page <? total_pages in
      let has_prev := 1 <? page in
      let meta :=
        mkMeta page page_size total_count total_pages has_next has_prev in
      let hadith_objects := map model_validate hadiths in
      ret (mkHadithsResponse hadith_objects (Some meta))
  end.

(** [GET /hadiths/chapter/{chapter_id}] *)
Definition get_hadiths_by_chapter (chapter_id : string)
    (page page_size : Z) (current_user : option Z) : M HadithsResponse :=
  validate ((1 <=? page) && (1 <=? page_size) && (page_size <=? 100)) ;;
  chapter <- fetch_one (fun d =>
    filter (fun c => String.eqb (ch_id c) chapter_id) (chapters d)) ;;
  match chapter with
  | None => raise 404 "Chapter not found"
  | Some _ =>
      let search_params :=
        mkSearch None None (Some chapter_id) None None None page page_size in
      let user_id := current_user in
      let base_query := build_hadith_query (Some search_params) user_id [] in
      let count_query := SQL.count_of base_query in
      total_count <- fetch_val count_query ;;
      let offset := (page - 1) * page_size in
      let query :=
        SQL.offset (SQL.limit (SQL.order_by base_query by_hadith_number)
                      page_size) offset in
      hadiths <- fetch_rows query ;;
      let total_pages := (total_count + page_size - 1) / page_size in
      let has_next := page <? total_pages in
      let has_prev := 1 <? page in
      let meta :=
        mkMeta page page_size total_count total_pages has_next has_prev in
      let hadith_objects := map model_validate hadiths in
      ret (mkHadithsResponse hadith_objects (Some meta))
  end.

(** [GET /hadiths/daily] *)
Definition get_daily_hadith (date_param : option string)
    (current_user : option Z) : M DailyHadithResponse :=
  target_date <-
    match truthy date_param with
    | Some s =>
        match Calendar.strptime s with
        | Some d => ret d
        | None => raise 400 "Invalid date format. Use YYYY-MM-DD"
        end
    | None => date_today
    end ;;
  random_seed (Calendar.toordinal target_date) ;;
  let user_id := current_user in
  let base_filters := [("grade", "Sahih")] in
  let base_query := build_hadith_query None user_id base_filters in
  let count_query := SQL.count_of base_query in
  total_count <- fetch_val count_query ;;
  if total_count =? 0
  then raise 404 "No hadiths available for daily selection"
  else
    random_offset <- random_randint 0 (total_count - 1) ;;
    let query :=
      SQL.offset (SQL.limit (SQL.order_by base_query by_hadith_number) 1)
                 random_offset in
    hadith <- fetch_row query ;;
    match hadith with
    | None => raise 404 "Daily hadith not found"
    | Some h =>
        ret (mkDaily "Daily hadith retrieved successfully"
               (model_validate h) target_date)
    end.

(** [GET /hadiths/random] *)
Definition get_random_hadith (collection_id : option string)
    (grade : option HadithGrade) (exclude_favorites : bool)
    (current_user : option Z) : M HadithResponse :=
  let user_id := current_user in
  let base_filters :=
    (match truthy collection_id with
     | Some c => [("collection_id", c)]
     | None => []
     end)
    ++
    (match grade with
     | Some g => [("grade", grade_value g)]
     | None => []
     end) in
  let base_query := build_hadith_query None user_id base_filters in
  let base_query :=
    match exclude_favorites, truthy_id user_id with
    | true, Some _ =>
        SQL.where_ base_query (SQL.Is (SQL.Col "favorites" "id") SQL.Null)
    | _, _ => base_query
    end in
  let count_query := SQL.count_of base_query in
  total_count <- fetch_val count_query ;;
  if total_count =? 0
  then raise 404 "No hadiths found matching criteria"
  else
    random_offset <- random_randint 0 (total_count - 1) ;;
    let query :=
      SQL.offset (SQL.limit (SQL.order_by base_query by_hadith_number) 1)
                 random_offset in
    hadith <- fetch_row query ;;
    match hadith with
    | None => raise 404 "Random hadith not found"
    | Some h =>
        ret (mkHadithResponse (Some "Random hadith retrieved successfully")
               (model_validate h))
    end.

(** [GET /hadiths/{hadith_id}] *)
Definition get_hadith (hadith_id : string) (current_user : option Z)
    : M HadithResponse :=
  let user_id := current_user in
  let base_query := build_hadith_query None user_id [] in
  let query :=
    SQL.where_ base_query
      (SQL.Eq (SQL.Col "hadiths" "id") (SQL.Str hadith_id)) in
  hadith <- fetch_row query ;;
  match hadith with
  | None => raise 404 "Hadith not found"
  | Some h => ret (mkHadithResponse None (model_validate h))
  end.

(* ----------------------------------------------------------------- *)
(** *** [routers/favorites.py] *)

Record FavoriteCreate : Type := mkFavoriteCreate {
  fc_hadith_id : string;
  fc_notes : option string
}.

Record FavoriteResponse : Type := mkFavoriteResponse {
  fr_message : option string;
  fr_data : FavoriteWithHadith
}.

Record FavoritesResponse : Type := mkFavoritesResponse {
  favorites_data : list FavoriteWithHadith;
  favorites_meta : option PaginationMeta
}.

(** The plain dict [{"success": True, "message": m}] of the removals. *)
Record Acknowledgment : Type := mkAck { ack_message : string }.

(** What the function [toggle_favorite] returns: the dict of the
    removal branch or the [FavoriteResponse] of the creating branch. *)
Inductive Toggled : Type :=
| Removed (a : Acknowledgment)
| Added (r : FavoriteResponse).

(** The select list of the two joined selects of this router:
    twenty-three columns and [literal(true) AS is_favorite], the SQL
    function that [func.literal(True)] names. *)
Definition favorite_select_list : list SQL.Expr :=
  [SQL.Col "favorites" "id";
   SQL.Col "favorites" "user_id";
   SQL.Col "favorites" "hadith_id";
   SQL.Col "favorites" "notes";
   SQL.Col "favorites" "added_at";
   SQL.Col "hadiths" "hadith_number";
   SQL.Col "hadiths" "arabic_text";
   SQL.Col "hadiths" "english_text";
   SQL.Col "hadiths" "narrator";
   SQL.Col "hadiths" "grade";
   SQL.Col "hadiths" "grade_details";
   SQL.Col "hadiths" "refs";
   SQL.Col "hadiths" "tags";
   SQL.Col "hadiths" "source_url";
   SQL.Label (SQL.Col "hadiths" "created_at") "hadith_created_at";
   SQL.Label (SQL.Col "hadiths" "updated_at") "hadith_updated_at";
   SQL.Col "hadiths" "collection_id";
   SQL.Col "hadiths" "chapter_id";
   SQL.Label (SQL.Col "collections" "name_en") "collection_name_en";
   SQL.Label (SQL.Col "collections" "name_ar") "collection_name_ar";
   SQL.Label (SQL.Col "chapters" "title_en") "chapter_title_en";
   SQL.Label (SQL.Col "chapters" "title_ar") "chapter_title_ar";
   SQL.Col "chapters" "chapter_number";
   SQL.Label (SQL.Func "literal" [SQL.Bool true]) "is_favorite"].

(** favorites JOIN hadiths JOIN collections JOIN chapters *)
Definition favorite_tables : SQL.Source :=
  SQL.Tables "favorites"
    [SQL.mkJoin false "hadiths"
       (SQL.Eq (SQL.Col "favorites" "hadith_id") (SQL.Col "hadiths" "id"));
     SQL.mkJoin false "collections"
       (SQL.Eq (SQL.Col "hadiths" "collection_id") (SQL.Col "collections" "id"));
     SQL.mkJoin false "chapters"
       (SQL.Eq (SQL.Col "hadiths" "chapter_id") (SQL.Col "chapters" "id"))].

(** The two dicts built from a row and validated: the hadith, with
    ["is_favorite": True], inside the favorite. *)
Definition favorite_object (fav : Row) : FavoriteWithHadith :=
  let h := model_validate fav in
  let hadith_obj :=
    mkDetails (hd h) (collection_name_en h) (collection_name_ar h)
              (chapter_title_en h) (chapter_title_ar h) (chapter_number h)
              true in
  mkFavoriteWithHadith (row_favorite fav) hadith_obj.

(** [GET /favorites/] *)
Definition get_user_favorites (page page_size : Z)
    (collection_id : option string) (current_user : Z)
    : M FavoritesResponse :=
  validate ((1 <=? page) && (1 <=? page_size) && (page_size <=? 100)) ;;
  let query :=
    SQL.where_ (SQL.select favorite_select_list favorite_tables)
      (SQL.Eq (SQL.Col "favorites" "user_id") (SQL.Int current_user)) in
  let query :=
    match truthy collection_id with
    | Some c =>
        SQL.where_ query
          (SQL.Eq (SQL.Col "hadiths" "collection_id") (SQL.Str c))
    | None => query
    end in
  let count_query :=
    SQL.where_
      (SQL.select [SQL.Func "count" []]
         (SQL.Tables "favorites"
            [SQL.mkJoin false "hadiths"
               (SQL.Eq (SQL.Col "favorites" "hadith_id")
                       (SQL.Col "hadiths" "id"))]))
      (SQL.And_
         [SQL.Eq (SQL.Col "favorites" "user_id") (SQL.Int current_user);
          match truthy collection_id with
          | Some c => SQL.Eq (SQL.Col "hadiths" "collection_id") (SQL.Str c)
          | None => SQL.Bool true
          end]) in
  total_count <- fetch_val count_query ;;
  let offset := (page - 1) * page_size in
  let query :=
    SQL.offset
      (SQL.limit
         (SQL.order_by query (SQL.Desc (SQL.Col "favorites" "added_at")))
         page_size)
      offset in
  favorites <- fetch_rows query ;;
  let total_pages := (total_count + page_size - 1) / page_size in
  let has_next := page <? total_pages in
  let has_prev := 1 <? page in
  let meta :=
    mkMeta page page_size total_count total_pages has_next has_prev in
  let favorite_objects := map favorite_object favorites in
  ret (mkFavoritesResponse favorite_objects (Some meta)).

(** Helper function to get favorite with hadith details *)
Definition get_favorite_with_hadith (favorite_id user_id : Z)
    : M (option FavoriteWithHadith) :=
  let query :=
    SQL.where_ (SQL.select favorite_select_list favorite_tables)
      (SQL.And_
         [SQL.Eq (SQL.Col "favorites" "id") (SQL.Int favorite_id);
          SQL.Eq (SQL.Col "favorites" "user_id") (SQL.Int user_id)]) in
  fav <- fetch_row query ;;
  match fav with
  | None => ret None
  | Some r => ret (Some (favorite_object r))
  end.

(** [FavoriteResponse(message=m, data=favorite)]: the model refuses a
    missing [data]. *)
Definition favorite_response (m : option string)
    (favorite : option FavoriteWithHadith) : M FavoriteResponse :=
  match favorite with
  | Some fw => ret (mkFavoriteResponse m fw)
  | None => throw ValidationError
  end.

(** [select(hadiths_table).where(hadiths_table.c.id == hadith_id)] *)
Definition select_hadith (hadith_id : string) : Query Hadith := fun d =>
  filter (fun h => String.eqb (h_id h) hadith_id) (hadiths d).

(** [select(favorites_table).where(cond)] *)
Definition select_favorites (cond : Favorite -> bool) : Query Favorite :=
  fun d => filter cond (favorites d).

(** [and_(favorites.id == favorite_id, favorites.user_id == user_id)] *)
Definition owned (favorite_id user_id : Z) (f : Favorite) : bool :=
  (f_id f =? favorite_id) && (f_user_id f =? user_id).

(** [POST /favorites/] *)
Definition add_favorite (favorite_data : FavoriteCreate) (current_user : Z)
    : M FavoriteResponse :=
  hadith <- fetch_one (select_hadith (fc_hadith_id favorite_data)) ;;
  match hadith with
  | None => raise 404 "Hadith not found"
  | Some _ =>
    existing <- fetch_one
      (select_favorites
         (Store.same_pair current_user (fc_hadith_id favorite_data))) ;;
    match existing with
    | Some _ => raise 400 "Hadith already in favorites"
    | None =>
      except_IntegrityError
        (favorite_id <- execute_insert current_user
                          (fc_hadith_id favorite_data)
                          (fc_notes favorite_data) ;;
         favorite <- get_favorite_with_hadith favorite_id current_user ;;
         favorite_response
           (Some "Hadith added to favorites successfully") favorite)
        (raise 400 "Hadith already in favorites")
    end
  end.

(** [GET /favorites/{favorite_id}] *)
Definition get_favorite (favorite_id current_user : Z) : M FavoriteResponse :=
  favorite <- get_favorite_with_hadith favorite_id current_user ;;
  match favorite with
  | None => raise 404 "Favorite not found"
  | Some fw => ret (mkFavoriteResponse None fw)
  end.

(** [PUT /favorites/{favorite_id}] *)
Definition update_favorite (favorite_id : Z) (notes : option string)
    (current_user : Z) : M FavoriteResponse :=
  existing <- fetch_one
    (select_favorites (owned favorite_id current_user)) ;;
  match existing with
  | None => raise 404 "Favorite not found"
  | Some _ =>
      execute_update (fun f => f_id f =? favorite_id) notes ;;
      favorite <- get_favorite_with_hadith favorite_id current_user ;;
      favorite_response (Some "Favorite updated successfully") favorite
  end.

(** [DELETE /favorites/{favorite_id}] *)
Definition remove_favorite (favorite_id current_user : Z)
    : M Acknowledgment :=
  existing <- fetch_one
    (select_favorites (owned favorite_id current_user)) ;;
  match existing with
  | None => raise 404 "Favorite not found"
  | Some _ =>
      execute_delete (fun f => f_id f =? favorite_id) ;;
      ret (mkAck "Favorite removed successfully")
  end.

(** [DELETE /favorites/hadith/{hadith_id}] *)
Definition remove_favorite_by_hadith (hadith_id : string) (current_user : Z)
    : M Acknowledgment :=
  existing <- fetch_one
    (select_favorites (Store.same_pair current_user hadith_id)) ;;
  match existing with
  | None => raise 404 "Hadith not in favorites"
  | Some _ =>
      execute_delete (Store.same_pair current_user hadith_id) ;;
      ret (mkAck "Favorite removed successfully")
  end.

(** What the route's [response_model=FavoriteResponse] does with the
    value the function returned: the removal dict has no [data] and is
    refused. *)
Definition as_FavoriteResponse (t : Toggled) : M FavoriteResponse :=
  match t with
  | Added r => ret r
  | Removed _ => throw ResponseValidationError
  end.

(** [POST /favorites/hadith/{hadith_id}], the function and then its
    [response_model]. *)
Definition toggle_favorite (hadith_id : string) (current_user : Z)
    : M FavoriteResponse :=
  returned <-
    (hadith <- fetch_one (select_hadith hadith_id) ;;
     match hadith with
     | None => raise 404 "Hadith not found"
     | Some _ =>
       existing <- fetch_one
         (select_favorites (Store.same_pair current_user hadith_id)) ;;
       match existing with
       | Some e =>
           execute_delete (fun f => f_id f =? f_id e) ;;
           ret (Removed (mkAck "Hadith removed from favorites"))
       | None =>
           favorite_id <- execute_insert current_user hadith_id None ;;
           favorite <- get_favorite_with_hadith favorite_id current_user ;;
           r <- favorite_response
                  (Some "Hadith added to favorites successfully") favorite ;;
           ret (Added r)
       end
     end) ;;
  as_FavoriteResponse returned.

(* ----------------------------------------------------------------- *)
(** *** [routers/collections.py] *)

Record CollectionsResponse : Type := mkCollectionsResponse {
  collections_data : list Collection;
  collections_meta : option PaginationMeta
}.

Record ChaptersResponse : Type := mkChaptersResponse {
  chapters_data : list Chapter;
  chapters_meta : option PaginationMeta
}.

(** [GET /collections/{collection_id}] *)
Definition get_collection (collection_id : string) : M CollectionsResponse :=
  collection <- fetch_one (fun d =>
    filter (fun c => String.eqb (c_id c) collection_id) (collections d)) ;;
  match collection with
  | None => raise 404 "Collection not found"
  | Some c => ret (mkCollectionsResponse [c] None)
  end.

(** [GET /collections/{collection_id}/chapters] *)
Definition get_collection_chapters (collection_id : string)
    (page page_size : Z) : M ChaptersResponse :=
  validate ((1 <=? page) && (1 <=? page_size) && (page_size <=? 100)) ;;
  collection <- fetch_one (fun d =>
    filter (fun c => String.eqb (c_id c) collection_id) (collections d)) ;;
  match collection with
  | None => raise 404 "Collection not found"
  | Some _ =>
      let offset := (page - 1) * page_size in
      let in_collection : Query Chapter := fun d =>
        filter (fun ch => String.eqb (ch_collection_id ch) collection_id)
               (chapters d) in
      total_count <- fetch_count in_collection ;;
      chapters <- fetch_page page_size offset
                    (order_by ch_chapter_number in_collection) ;;
      let total_pages := (total_count + page_size - 1) / page_size in
      let has_next := page <? total_pages in
      let has_prev := 1 <? page in
      let meta :=
        mkMeta page page_size total_count total_pages has_next has_prev in
      ret (mkChaptersResponse chapters (Some meta))
  end.

(** [GET /collections/{collection_id}/chapters/{chapter_id}] *)
Definition get_chapter (collection_id chapter_id : string)
    : M ChaptersResponse :=
  chapter <- fetch_one (fun d =>
    filter (fun ch => String.eqb (ch_collection_id ch) collection_id
                      && String.eqb (ch_id ch) chapter_id)
           (chapters d)) ;;
  match chapter with
  | None => raise 404 "Chapter not found"
  | Some ch => ret (mkChaptersResponse [ch] None)
  end.

End Handlers.

(* ================================================================= *)
(** ** [scripts/fetch_sunnah_data.py]: the grade normalizer *)

Module Normalizer.

(** [str.lower()], on ASCII text. *)
Fixpoint lower (s : string) : string :=
  match s with
  | EmptyString => EmptyString
  | String c s' => String (Store.lower c) (lower s')
  end.

(** The ASCII characters [str.strip()] removes: tab to carriage
    return, the four separators and the space. *)
Definition is_space (c : ascii) : bool :=
  let n := nat_of_ascii c in
  ((9 <=? n)%nat && (n <=? 13)%nat) || ((28 <=? n)%nat && (n <=? 32)%nat).

Fixpoint lstrip (s : string) : string :=
  match s with
  | EmptyString => EmptyString
  | String c s' => if is_space c then lstrip s' else s
  end.

Fixpoint rstrip (s : string) : string :=
  match s with
  | EmptyString => EmptyString
  | String c s' =>
      match rstrip s' with
      | EmptyString => if is_space c then EmptyString else String c EmptyString
      | r => String c r
      end
  end.

Definition strip (s : string) : string := rstrip (lstrip s).

(** [key in text] *)
Fixpoint occurs_in (key text : string) : bool :=
  String.prefix key text
  || match text with
     | EmptyString => false
     | String _ text' => occurs_in key text'
     end.

(** [self.grade_mapping], in insertion order. *)
Definition grade_mapping : list (string * string) :=
  [("sahih", "Sahih"); ("hasan", "Hasan"); ("da'if", "Da'if");
   ("daif", "Da'if"); ("mawdu", "Mawdu'"); ("unknown", "Unknown")].

(** [DataNormalizer.normalize_grade]; [None] is Python's [None]. *)
Definition normalize_grade (grade_text : option string) : string :=
  match truthy grade_text with
  | None => "Unknown"
  | Some grade_text =>
      let grade_lower := strip (lower grade_text) in
      match find (fun kv => String.eqb (fst kv) grade_lower) grade_mapping with
      | Some kv => snd kv
      | None =>
          match find (fun kv => occurs_in (fst kv) grade_lower)
                  grade_mapping with
          | Some kv => snd kv
          | None => "Unknown"
          end
      end
  end.

End Normalizer.

(* ================================================================= *)
(** ** [simple_server.py]: the route table *)

Module SimpleServer.

(** A path pattern, segment by segment: ["/api/v1/hadiths/{hadith_id}"]
    is [[Lit "api"; Lit "v1"; Lit "hadiths"; Param "hadith_id"]]. *)
Inductive Segment : Type :=
| Lit (s : string)
| Param (name : string).

(** The functions the decorators register, all for [GET]. *)
Inductive Endpoint : Type :=
| root
| health_check
| get_collections
| get_chapters
| get_hadiths
| get_hadith
| get_daily_hadith
| test_endpoint
| get_random_hadith.

(** The routes, in the order the file registers them. *)
Definition routes : list (list Segment * Endpoint) :=
  [([], root);
   ([Lit "health"], health_check);
   ([Lit "api"; Lit "v1"; Lit "collections"], get_collections);
   ([Lit "api"; Lit "v1"; Lit "collections"; Param "collection_id";
     Lit "chapters"], get_chapters);
   ([Lit "api"; Lit "v1"; Lit "hadiths"], get_hadiths);
   ([Lit "api"; Lit "v1"; Lit "hadiths"; Param "hadith_id"], get_hadith);
   ([Lit "api"; Lit "v1"; Lit "hadiths"; Lit "daily"], get_daily_hadith);
   ([Lit "test"], test_endpoint);
   ([Lit "api"; Lit "v1"; Lit "hadiths"; Lit "random"], get_random_hadith)].

(** A pattern against the segments of a request path: a literal
    matches itself, a parameter any segment that is not empty; the
    parameters come back with what they matched. *)
Fixpoint matches (pattern : list Segment) (path : list string)
    : option (list (string * string)) :=
  match pattern, path with
  | [], [] => Some []
  | Lit s :: pattern', x :: path' =>
      if String.eqb s x then matches pattern' path' else None
  | Param name :: pattern', x :: path' =>
      if String.eqb x "" then None
      else option_map (cons (name, x)) (matches pattern' path')
  | _, _ => None
  end.

(** The router asks the routes in order and takes the first that
    matches. *)
Fixpoint first_match (table : list (list Segment * Endpoint))
    (path : list string) : option (Endpoint * list (string * string)) :=
  match table with
  | [] => None
  | (pattern, endpoint) :: table' =>
      match matches pattern path with
      | Some params => Some (endpoint, params)
      | None => first_match table' path
      end
  end.

Definition dispatch (path : list string)
    : option (Endpoint * list (string * string)) :=
  first_match routes path.

End SimpleServer.

(* ================================================================= *)
(** * Part II: what the properties speak about *)

(* ================================================================= *)
(** ** Integrity of the store *)

Definition pair_of (f : Favorite) : Z * string := (f_user_id f, f_hadith_id f).

(** [UniqueConstraint("user_id", "hadith_id")] on [favorites]. *)
Definition favorites_unique (d : DB) : Prop :=
  NoDup (map pair_of (favorites d)).

(** Primary keys and foreign keys of [database.py]. *)
Record db_wf (d : DB) : Prop := mk_db_wf {
  wf_collections_pk : NoDup (map c_id (collections d));
  wf_chapters_pk : NoDup (map ch_id (chapters d));
  wf_hadiths_pk : NoDup (map h_id (hadiths d));
  wf_hadith_collection :
    forall h, In h (hadiths d) ->
              In (h_collection_id h) (map c_id (collections d));
  wf_hadith_chapter :
    forall h, In h (hadiths d) ->
              In (h_chapter_id h) (map ch_id (chapters d));
  wf_favorites_pk : NoDup (map f_id (favorites d));
  wf_favorites_unique : favorites_unique d
}.

(** The (user, hadith) pair has a favorite row. *)
Definition present (u : Z) (h : string) (d : DB) : bool :=
  existsb (Store.same_pair u h) (favorites d).

(** Every key in [favorites] came from the sequence: none is above the
    last value given out. *)
Definition keys_issued (d : DB) : Prop :=
  forall f, In f (favorites d) -> f_id f <= favorites_id_seq d.

(** [ForeignKey("hadiths.id")] on [favorites.hadith_id]. *)
Definition favorites_ref (d : DB) : Prop :=
  forall f, In f (favorites d) -> In (f_hadith_id f) (map h_id (hadiths d)).

(** [UniqueConstraint("collection_id", "chapter_number")] on [chapters]. *)
Definition chapter_numbers_unique (d : DB) : Prop :=
  NoDup (map (fun c => (ch_collection_id c, ch_chapter_number c))
             (chapters d)).

Definition ascending {A : Type} (key : A -> Z) : list A -> Prop :=
  StronglySorted (fun x y => key x <= key y).

(** The favorite rows of everybody but [u]. *)
Definition others (u : Z) (fs : list Favorite) : list Favorite :=
  filter (fun f => negb (f_user_id f =? u)) fs.

(** The chapters of a collection, in table order. *)
Definition chapters_of (collection_id : string) (d : DB) : list Chapter :=
  filter (fun ch => String.eqb (ch_collection_id ch) collection_id)
         (chapters d).

(** The rows of page [p] of size [s]. *)
Definition window {A : Type} (p s : Z) (rows : list A) : list A :=
  Store.window s ((p - 1) * s) rows.

(** The pagination record every listing computes from its count. *)
Definition meta_of (p s total_count : Z) : PaginationMeta :=
  let total_pages := (total_count + s - 1) / s in
  mkMeta p s total_count total_pages (p <? total_pages) (1 <? p).

(* ================================================================= *)
(** ** Statements decided by their select list *)

(** The select list alone has the engine refuse the statement: it
    calls a function the engine does not have, or holds an aggregate
    beside an ungrouped column. *)
Definition select_list_refused (s : SQL.Statement) : bool :=
  match s with
  | SQL.mkSelect columns _ _ groups _ _ _ =>
      existsb (fun f => negb (SQL.named SQL.engine_functions f))
              (flat_map SQL.calls columns)
      || SQL.ungrouped_column columns groups
  end.

(* ================================================================= *)
(** ** The specification's wording, where the code is compared to it *)



(* ================================================================= *)
(** ** Requests and the service as a transition system *)

(** The three list endpoints of [routers/hadiths.py]. *)
Inductive ListEndpoint : Type :=
| AllHadiths (q collection_id chapter_id : option string)
    (grade : option HadithGrade) (narrator : option string)
| ByCollection (collection_id : string) (grade : option HadithGrade)
| ByChapter (chapter_id : string).

(** The collection or chapter named in the path exists. *)
Definition list_target (e : ListEndpoint) (d : DB) : Prop :=
  match e with
  | AllHadiths _ _ _ _ _ => True
  | ByCollection c _ => In c (map c_id (collections d))
  | ByChapter ch => In ch (map ch_id (chapters d))
  end.

(** The detail of the 404 a list endpoint answers for a missing target. *)
Definition missing_detail (e : ListEndpoint) : string :=
  match e with
  | ByChapter _ => "Chapter not found"
  | _ => "Collection not found"
  end.

Definition valid_page (p s : Z) : Prop := 1 <= p /\ 1 <= s <= 100.

(** The writes a handler can make to [favorites]: a row under a key
    and a pair the table does not hold, a delete, a change of notes. *)
Inductive favorites_change (fs : list Favorite) : list Favorite -> Prop :=
| change_insert (k u : Z) (h : string) (n : option string) :
    existsb (Store.same_pair u h) fs = false ->
    existsb (fun f => f_id f =? k) fs = false ->
    favorites_change fs (fs ++ [mkFavorite k u h n])
| change_delete (cond : Favorite -> bool) :
    favorites_change fs (Store.delete_where cond fs)
| change_update (cond : Favorite -> bool) (n : option string) :
    favorites_change fs (Store.update_notes cond n fs).

Inductive favorites_evolve (fs : list Favorite) : list Favorite -> Prop :=
| evolve_refl : favorites_evolve fs fs
| evolve_step fs1 fs2 :
    favorites_evolve fs fs1 -> favorites_change fs1 fs2 ->
    favorites_evolve fs fs2.

(** What a favorites request made for user [u] may leave in
    [favorites]: the table as it was, one more row of [u] for a hadith
    of the store, or the table with some rows of [u] deleted or their
    notes rewritten. *)
Inductive acts_for (d : DB) (u : Z) : list Favorite -> Prop :=
| acts_nothing : acts_for d u (favorites d)
| acts_insert (k : Z) (h : string) (n : option string) :
    In h (map h_id (hadiths d)) ->
    present u h d = false ->
    acts_for d u (favorites d ++ [mkFavorite k u h n])
| acts_delete (cond : Favorite -> bool) :
    (forall x, In x (favorites d) -> cond x = true -> f_user_id x = u) ->
    acts_for d u (Store.delete_where cond (favorites d))
| acts_update (cond : Favorite -> bool) (n : option string) :
    (forall x, In x (favorites d) -> cond x = true -> f_user_id x = u) ->
    acts_for d u (Store.update_notes cond n (favorites d)).

Inductive Request : Type :=
| GetHadiths (q collection_id chapter_id : option string)
    (grade : option HadithGrade) (narrator : option string)
    (page page_size : Z) (current_user : option Z)
| GetHadithsByCollection (collection_id : string) (page page_size : Z)
    (grade : option HadithGrade) (current_user : option Z)
| GetHadithsByChapter (chapter_id : string) (page page_size : Z)
    (current_user : option Z)
| GetDailyHadith (date_param : option string) (current_user : option Z)
| GetRandomHadith (collection_id : option string)
    (grade : option HadithGrade) (exclude_favorites : bool)
    (current_user : option Z)
| AddFavorite (favorite_data : FavoriteCreate) (current_user : Z)
| GetFavorite (favorite_id current_user : Z)
| UpdateFavorite (favorite_id : Z) (notes : option string) (current_user : Z)
| RemoveFavorite (favorite_id current_user : Z)
| RemoveFavoriteByHadith (hadith_id : string) (current_user : Z)
| ToggleFavorite (hadith_id : string) (current_user : Z).

(** The authenticated user a favorites request acts for. *)
Definition requester (r : Request) : option Z :=
  match r with
  | AddFavorite _ u | GetFavorite _ u | UpdateFavorite _ _ u
  | RemoveFavorite _ u | RemoveFavoriteByHadith _ u | ToggleFavorite _ u =>
      Some u
  | _ => None
  end.

Section Vocabulary.

Context {G : PRNG} {E : Engine}.

Definition list_handler (e : ListEndpoint) (p s : Z) (u : option Z)
    : M HadithsResponse :=
  match e with
  | AllHadiths q c ch g n => get_hadiths q c ch g n p s u
  | ByCollection c g => get_hadiths_by_collection c p s g u
  | ByChapter ch => get_hadiths_by_chapter ch p s u
  end.

(** The date the daily pick works on: the parsed parameter, or today
    when the parameter is absent or empty; [None] when parsing fails. *)
Definition target_date (date_param : option string) (w : World)
    : option Calendar.date :=
  match truthy date_param with
  | Some s => Calendar.strptime s
  | None => Some (today w)
  end.

(** The world once [random.seed] has been called with the ordinal of
    a date. *)
Definition reseeded (dt : Calendar.date) (w : World) : World :=
  mkWorld (database w) (seed (Calendar.toordinal dt)) (today w).

(** The world once the sequence has given out [n] more values. *)
Definition sequence_moved (n : Z) (w : World) : World :=
  mkWorld
    (mkDB (collections (database w)) (chapters (database w))
          (hadiths (database w)) (favorites (database w))
          (favorites_id_seq (database w) + n))
    (random w) (today w).

(** The world once the insert of a favorite has gone in: the row sits
    under the next value of the sequence. *)
Definition inserted (u : Z) (h : string) (n : option string) (w : World)
    : World :=
  mkWorld
    (mkDB (collections (database w)) (chapters (database w))
          (hadiths (database w))
          (favorites (database w)
           ++ [mkFavorite (favorites_id_seq (database w) + 1) u h n])
          (favorites_id_seq (database w) + 1))
    (random w) (today w).

(** A handler leaves the read-mostly tables alone and moves [favorites]
    by the store's writes only. *)
Definition evolves (w w' : World) : Prop :=
  collections (database w') = collections (database w)
  /\ chapters (database w') = chapters (database w)
  /\ hadiths (database w') = hadiths (database w)
  /\ favorites_evolve (favorites (database w)) (favorites (database w')).

(** Every run of the computation moves the world by [evolves]. *)
Definition stable {A : Type} (c : M A) : Prop :=
  forall w, evolves w (snd (c w)).

(** The world a request leaves behind, whatever it answers. *)
Definition serve (r : Request) (w : World) : World :=
  match r with
  | GetHadiths q c ch g n p s u => snd (get_hadiths q c ch g n p s u w)
  | GetHadithsByCollection c p s g u =>
      snd (get_hadiths_by_collection c p s g u w)
  | GetHadithsByChapter ch p s u => snd (get_hadiths_by_chapter ch p s u w)
  | GetDailyHadith d u => snd (get_daily_hadith d u w)
  | GetRandomHadith c g e u => snd (get_random_hadith c g e u w)
  | AddFavorite fd u => snd (add_favorite fd u w)
  | GetFavorite k u => snd (get_favorite k u w)
  | UpdateFavorite k n u => snd (update_favorite k n u w)
  | RemoveFavorite k u => snd (remove_favorite k u w)
  | RemoveFavoriteByHadith h u => snd (remove_favorite_by_hadith h u w)
  | ToggleFavorite h u => snd (toggle_favorite h u w)
  end.

(** The store starts with no favorites (the other tables come from the
    import); every later state is reached by serving requests. *)
Inductive reachable : World -> Prop :=
| reachable_start (w : World) :
    favorites (database w) = [] -> reachable w
| reachable_serve (w : World) (r : Request) :
    reachable w -> reachable (serve r w).

End Vocabulary.

(* ================================================================= *)
(** ** A concrete generator, a concrete engine and a concrete store *)

(** A small linear congruential generator, to run the handlers on
    concrete requests. *)
Definition lcg_next (g : Z) : Z := (1103515245 * g + 12345) mod 2147483648.

Definition lcg_randint (a b g : Z) : Z * Z :=
  let g' := lcg_next g in (a + g' mod (b - a + 1), g').

#[export, refine] Instance lcg : PRNG := {|
  rng_state := Z;
  seed := fun n => n mod 2147483648;
  randint := lcg_randint
|}.
Proof.
  intros a b g Hab. unfold lcg_randint. cbn [fst].
  pose proof (Z.mod_pos_bound (lcg_next g) (b - a + 1)). lia.
Defined.

(** A small engine of the same kind: it refuses what [SQL.refused]
    names and finds no rows otherwise, and it sorts by insertion. *)
Fixpoint insert_by {A : Type} (key : A -> Z) (x : A) (l : list A) : list A :=
  match l with
  | [] => [x]
  | y :: l' => if key x <=? key y then x :: l else y :: insert_by key x l'
  end.

Definition insertion_sort {A : Type} (key : A -> Z) (l : list A) : list A :=
  fold_right (insert_by key) [] l.

Lemma insert_by_perm {A : Type} (key : A -> Z) (x : A) (l : list A) :
  Permutation (insert_by key x l) (x :: l).
Proof.
  induction l as [|y l IH]; cbn [insert_by]; [reflexivity|].
  destruct (key x <=? key y); [reflexivity|].
  rewrite IH. apply perm_swap.
Qed.

Lemma insert_by_sorted {A : Type} (key : A -> Z) (x : A) (l : list A) :
  ascending key l -> ascending key (insert_by key x l).
Proof.
  induction l as [|y l IH]; intros Hs; cbn [insert_by].
  - repeat constructor.
  - destruct (Z.leb_spec (key x) (key y)) as [Hle|Hgt].
    + constructor; [exact Hs|]. constructor; [exact Hle|].
      apply StronglySorted_inv in Hs as [_ Hall].
      eapply Forall_impl; [|exact Hall]. cbn. intros z Hz. lia.
    + apply StronglySorted_inv in Hs as [Hs Hall].
      constructor; [now apply IH|].
      rewrite insert_by_perm. constructor; [lia|exact Hall].
Qed.

#[export, refine] Instance mini : Engine := {|
  Row := unit;
  execute := fun s _ => if SQL.refused s then None else Some [];
  execute_scalar := fun s _ => if SQL.refused s then None else Some 0;
  model_validate := fun _ =>
    mkDetails (mkHadith "" "" "" 0 "" "" "" UNKNOWN) "" "" "" "" 0 false;
  row_favorite := fun _ => mkFavorite 0 0 "" None;
  sort_by := @insertion_sort;
  on_violation := SQLError
|}.
Proof.
  - intros s d H. now rewrite H.
  - intros s d H. now rewrite H.
  - intros A key l. induction l as [|x l IH]; [reflexivity|].
    cbn [insertion_sort fold_right]. rewrite insert_by_perm.
    now constructor.
  - intros A key l. induction l as [|x l IH]; [constructor|].
    cbn [insertion_sort fold_right]. now apply insert_by_sorted.
Defined.

Module Sample.

Definition riyad : Collection :=
  mkCollection "riyad" "Riyad as-Salihin" "Riyad al-Salihin".

Definition bukhari : Collection :=
  mkCollection "bukhari" "Sahih al-Bukhari" "Sahih al-Bukhari".

Definition riyad_ch1 : Chapter :=
  mkChapter "riyad-ch1" "riyad" 1 "Sincerity" "al-Ikhlas".

Definition riyad_ch2 : Chapter :=
  mkChapter "riyad-ch2" "riyad" 2 "Repentance" "al-Tawba".

Definition bukhari_ch1 : Chapter :=
  mkChapter "bukhari-ch1" "bukhari" 1 "Revelation" "Bad al-Wahy".

Definition riyad_1 : Hadith :=
  mkHadith "riyad-1" "riyad" "riyad-ch1" 1
    "innama al-amal bil-niyyat" "Actions are but by intention"
    "Umar ibn al-Khattab" SAHIH.

Definition bukhari_1 : Hadith :=
  mkHadith "bukhari-1" "bukhari" "bukhari-ch1" 1
    "innama al-amal bil-niyyat" "Actions are judged by intentions"
    "Umar ibn al-Khattab" SAHIH.

Definition riyad_2 : Hadith :=
  mkHadith "riyad-2" "riyad" "riyad-ch1" 2
    "al-din al-nasiha" "The religion is sincerity"
    "Tamim al-Dari" HASAN.

(** The store after import, before any favorite. *)
Definition db0 : DB :=
  mkDB [riyad; bukhari] [riyad_ch2; riyad_ch1; bukhari_ch1]
       [riyad_1; bukhari_1; riyad_2] [] 0.

(** The same store once user 7 has marked [riyad-1]. *)
Definition db1 : DB :=
  mkDB (collections db0) (chapters db0) (hadiths db0)
       [mkFavorite 1 7 "riyad-1" None] 1.

(** User 8 marks [riyad-2] beside the favorite of user 7; a third
    favorite, key 3, has come and gone. *)
Definition db3 : DB :=
  mkDB (collections db0) (chapters db0) (hadiths db0)
       [mkFavorite 1 7 "riyad-1" None; mkFavorite 2 8 "riyad-2" (Some "read")]
       3.

Definition jan15 : Calendar.date := Calendar.mkDate 2024 1 15.
Definition mar03 : Calendar.date := Calendar.mkDate 2025 3 3.

Definition world0 : World := mkWorld db0 (seed 1) jan15.
Definition world0' : World := mkWorld db0 (seed 99) mar03.
Definition world1 : World := mkWorld db1 (seed 1) jan15.
Definition world3 : World := mkWorld db3 (seed 1) jan15.

End Sample.


(* ================================================================= *)
(** * Part III: lemmas and theorems *)

(* ================================================================= *)
(** ** Selections of rows *)

Section Selections.

Context {A : Type}.

Lemma filter_none (p : A -> bool) (l : list A) :
  (forall x, In x l -> p x = false) -> filter p l = [].
Proof.
  induction l as [|a l IH]; cbn [filter]; intros Hp; [reflexivity|].
  rewrite (Hp a (or_introl eq_refl)). apply IH.
  intros x Hx. apply Hp. now right.
Qed.

Lemma filter_twice (p q : A -> bool) (l : list A) :
  filter p (filter q l) = filter (fun x => q x && p x) l.
Proof.
  induction l as [|a l IH]; cbn [filter]; [reflexivity|].
  destruct (q a); cbn [filter andb]; [destruct (p a)|]; now rewrite IH.
Qed.

(** A key that no row carries selects nothing. *)
Lemma filter_absent (key : A -> string) (k : string) (l : list A) :
  ~ In k (map key l) -> filter (fun y => String.eqb (key y) k) l = [].
Proof.
  intros Hn. apply filter_none. intros x Hx.
  destruct (String.eqb_spec (key x) k) as [E|_]; [|reflexivity].
  exfalso. apply Hn. rewrite <- E. now apply in_map.
Qed.

(** A key that some row carries selects a row. *)
Lemma found_by_key (key : A -> string) (k : string) (l : list A) :
  In k (map key l) ->
  exists x rest, filter (fun y => String.eqb (key y) k) l = x :: rest.
Proof.
  intros Hin. apply in_map_iff in Hin as (x & Hk & Hx).
  destruct (filter _ l) as [|y rest] eqn:E; [|now exists y, rest].
  assert (Hf : In x (filter (fun y => String.eqb (key y) k) l)).
  { apply filter_In. split; [assumption|now apply String.eqb_eq]. }
  rewrite E in Hf. destruct Hf.
Qed.

(** A selection of rows keeps a key a key. *)
Lemma filter_keeps_key {K : Type} (key : A -> K) (keep : A -> bool)
    (rows : list A) (Hkey : NoDup (map key rows)) :
  NoDup (map key (filter keep rows)).
Proof.
  induction rows as [|r rows IH]; cbn [map filter] in *; [constructor|].
  apply NoDup_cons_iff in Hkey as [Hfresh Hkey].
  destruct (keep r); cbn [map]; [|now apply IH].
  apply NoDup_cons; [|now apply IH].
  intros Hin. apply Hfresh.
  apply in_map_iff in Hin as (x & Hx & Hin).
  apply filter_In in Hin as [Hin _].
  rewrite <- Hx. now apply in_map.
Qed.

Lemma NoDup_map_snoc {B : Type} (f : A -> B) (l : list A) (x : A) :
  NoDup (map f l) -> ~ In (f x) (map f l) -> NoDup (map f (l ++ [x])).
Proof.
  intros Hnd Hx. rewrite map_app. cbn [map].
  apply NoDup_app; [assumption|repeat constructor; easy|].
  intros y Hy [<-|[]]. contradiction.
Qed.

(** Under a key, two rows with the same key are one row. *)
Lemma NoDup_map_eq {B : Type} (k : A -> B) (l : list A) (x y : A) :
  NoDup (map k l) -> In x l -> In y l -> k x = k y -> x = y.
Proof.
  induction l as [|a l IH]; cbn [map In]; intros Hnd Hx Hy E; [easy|].
  inversion Hnd as [|? ? Hnotin Hnd']; subst.
  destruct Hx as [->|Hx], Hy as [->|Hy].
  - reflexivity.
  - exfalso. apply Hnotin. rewrite E. now apply in_map.
  - exfalso. apply Hnotin. rewrite <- E. now apply in_map.
  - now apply IH.
Qed.

(** Under a key, the selection by the key of a row is that row. *)
Lemma filter_key_row {B : Type} (k : A -> B) (same : B -> B -> bool)
    (Hsame : forall a b, same a b = true <-> a = b) (l : list A) (x : A) :
  NoDup (map k l) -> In x l ->
  filter (fun y => same (k y) (k x)) l = [x].
Proof.
  induction l as [|a l IH]; cbn [map In filter]; intros Hnd Hx; [easy|].
  inversion Hnd as [|? ? Hnotin Hnd']; subst.
  destruct Hx as [->|Hx].
  - rewrite (proj2 (Hsame _ _) eq_refl). f_equal.
    apply filter_none. intros y Hy.
    destruct (same (k y) (k x)) eqn:E; [|reflexivity].
    exfalso. apply Hnotin. apply Hsame in E. rewrite <- E. now apply in_map.
  - destruct (same (k a) (k x)) eqn:E; [|now apply IH].
    exfalso. apply Hnotin. apply Hsame in E. rewrite E. now apply in_map.
Qed.

End Selections.

(* ================================================================= *)
(** ** Rows in ascending order *)

Lemma sorted_skipn {A : Type} (R : A -> A -> Prop) (n : nat) (l : list A) :
  StronglySorted R l -> StronglySorted R (skipn n l).
Proof.
  revert l. induction n as [|n IH]; intros l Hs; [exact Hs|].
  destruct l as [|a l]; [constructor|].
  cbn [skipn]. apply IH. now apply StronglySorted_inv in Hs.
Qed.

Lemma sorted_firstn {A : Type} (R : A -> A -> Prop) (n : nat) (l : list A) :
  StronglySorted R l -> StronglySorted R (firstn n l).
Proof.
  revert l. induction n as [|n IH]; intros l Hs; [constructor|].
  destruct l as [|a l]; [constructor|].
  cbn [firstn]. apply StronglySorted_inv in Hs as [Hs Hall].
  constructor; [now apply IH|].
  rewrite Forall_forall in *. intros x Hx.
  apply Hall. rewrite <- (firstn_skipn n l). apply in_or_app. now left.
Qed.

Lemma sorted_window {A : Type} (R : A -> A -> Prop) (n k : Z)
    (l : list A) :
  StronglySorted R l -> StronglySorted R (Store.window n k l).
Proof.
  intros Hs. unfold Store.window. now apply sorted_firstn, sorted_skipn.
Qed.

(** Rows in ascending order whose keys are pairwise different are in
    strictly ascending order. *)
Lemma ascending_strict {A : Type} (key : A -> Z) (l : list A) :
  ascending key l -> NoDup (map key l) ->
  StronglySorted (fun x y => key x < key y) l.
Proof.
  induction l as [|a l IH]; intros Hs Hnd; [constructor|].
  apply StronglySorted_inv in Hs as [Hs Hall].
  cbn [map] in Hnd. apply NoDup_cons_iff in Hnd as [Hfresh Hnd].
  constructor; [now apply IH|].
  rewrite Forall_forall in *. intros x Hx.
  specialize (Hall x Hx).
  assert (key a <> key x); [|lia].
  intros E. apply Hfresh. rewrite E. now apply in_map.
Qed.

Lemma in_window {A : Type} (n k : Z) (l : list A) (x : A) :
  In x (Store.window n k l) -> In x l.
Proof.
  unfold Store.window. intros Hx.
  assert (Hs : In x (skipn (Z.to_nat k) l)).
  { rewrite <- (firstn_skipn (Z.to_nat n) (skipn (Z.to_nat k) l)).
    apply in_or_app. now left. }
  rewrite <- (firstn_skipn (Z.to_nat k) l). apply in_or_app. now right.
Qed.

(* ================================================================= *)
(** ** The favorites table under its writes *)

Lemma same_pair_iff (u : Z) (h : string) (f : Favorite) :
  Store.same_pair u h f = true <-> pair_of f = (u, h).
Proof.
  unfold Store.same_pair, pair_of. rewrite andb_true_iff.
  rewrite Z.eqb_eq, String.eqb_eq. split.
  - now intros [-> ->].
  - intros E. now injection E.
Qed.

Lemma absent_not_in (u : Z) (h : string) (fs : list Favorite) :
  existsb (Store.same_pair u h) fs = false -> ~ In (u, h) (map pair_of fs).
Proof.
  intros He Hin. apply in_map_iff in Hin as (f & Hf & Hin).
  assert (Ht : existsb (Store.same_pair u h) fs = true).
  { apply existsb_exists. exists f. split; [assumption|].
    now apply same_pair_iff. }
  congruence.
Qed.

Lemma key_not_in (k : Z) (fs : list Favorite) :
  existsb (fun f => f_id f =? k) fs = false -> ~ In k (map f_id fs).
Proof.
  intros He Hin. apply in_map_iff in Hin as (f & Hf & Hin).
  assert (Ht : existsb (fun f => f_id f =? k) fs = true).
  { apply existsb_exists. exists f. split; [assumption|].
    now apply Z.eqb_eq. }
  congruence.
Qed.

(** A key above every key given out is in no row. *)
Lemma issued_key_fresh (d : DB) :
  keys_issued d ->
  existsb (fun f => f_id f =? favorites_id_seq d + 1) (favorites d) = false.
Proof.
  intros Hk. destruct (existsb _ _) eqn:E; [|reflexivity].
  apply existsb_exists in E as (f & Hf & Hid).
  apply Z.eqb_eq in Hid. specialize (Hk f Hf). lia.
Qed.

Lemma update_notes_pairs (cond : Favorite -> bool) (n : option string)
    (fs : list Favorite) :
  map pair_of (Store.update_notes cond n fs) = map pair_of fs
  /\ map f_id (Store.update_notes cond n fs) = map f_id fs.
Proof.
  unfold Store.update_notes. rewrite !map_map.
  split; apply map_ext; intros f; destruct (cond f); reflexivity.
Qed.

(** The rows of a pair, the pair being unique: none or one. *)
Lemma filter_pair_unique (u : Z) (h : string) (fs : list Favorite) :
  NoDup (map pair_of fs) ->
  filter (Store.same_pair u h) fs = []
  \/ exists f, filter (Store.same_pair u h) fs = [f].
Proof.
  induction fs as [|a fs IH]; cbn [map filter]; intros Hnd; [now left|].
  inversion Hnd as [|? ? Hnotin Hnd']; subst.
  destruct (Store.same_pair u h a) eqn:Ha.
  - right. exists a. f_equal. apply filter_none.
    intros x Hx. destruct (Store.same_pair u h x) eqn:Hxp; [|reflexivity].
    exfalso. apply Hnotin.
    apply same_pair_iff in Ha, Hxp. rewrite Ha, <- Hxp.
    now apply in_map.
  - now apply IH.
Qed.

(** One write keeps both keys of [favorites]: the primary key and the
    (user, hadith) pair. *)
Lemma favorites_change_keys (fs fs' : list Favorite) :
  favorites_change fs fs' ->
  NoDup (map f_id fs) /\ NoDup (map pair_of fs) ->
  NoDup (map f_id fs') /\ NoDup (map pair_of fs').
Proof.
  intros Hch [Hid Hpair].
  destruct Hch as [k u h n Habs Hkey|cond|cond n].
  - split; apply NoDup_map_snoc; try assumption.
    + now apply key_not_in.
    + now apply absent_not_in.
  - split; now apply filter_keeps_key.
  - destruct (update_notes_pairs cond n fs) as [-> ->]. now split.
Qed.

Lemma favorites_change_unique (fs fs' : list Favorite) :
  favorites_change fs fs' ->
  NoDup (map pair_of fs) -> NoDup (map pair_of fs').
Proof.
  intros Hch Hpair.
  destruct Hch as [k u h n Habs Hkey|cond|cond n].
  - apply NoDup_map_snoc; [assumption|now apply absent_not_in].
  - now apply filter_keeps_key.
  - now destruct (update_notes_pairs cond n fs) as [-> _].
Qed.

Lemma favorites_evolve_trans (a b c : list Favorite) :
  favorites_evolve a b -> favorites_evolve b c -> favorites_evolve a c.
Proof.
  intros Hab Hbc. induction Hbc as [|c1 c2 _ IH Hch]; [assumption|].
  now apply evolve_step with c1.
Qed.

Lemma favorites_evolve_unique (fs fs' : list Favorite) :
  favorites_evolve fs fs' ->
  NoDup (map pair_of fs) -> NoDup (map pair_of fs').
Proof.
  intros Hev Hu. induction Hev as [|fs1 fs2 _ IH Hch]; [assumption|].
  now apply (favorites_change_unique fs1 fs2 Hch), IH.
Qed.

Lemma favorites_evolve_keys (fs fs' : list Favorite) :
  favorites_evolve fs fs' ->
  NoDup (map f_id fs) /\ NoDup (map pair_of fs) ->
  NoDup (map f_id fs') /\ NoDup (map pair_of fs').
Proof.
  intros Hev Hk. induction Hev as [|fs1 fs2 _ IH Hch]; [assumption|].
  now apply (favorites_change_keys fs1 fs2 Hch), IH.
Qed.

(* ================================================================= *)
(** ** The statements the engine refuses *)

Module Refusal.

Import SQL.

Lemma by_select_list (s : Statement) :
  select_list_refused s = true -> refused s = true.
Proof.
  destruct s as [c f w g o l k]. unfold select_list_refused.
  cbn [refused]. unfold unknown_function.
  rewrite flat_map_app, existsb_app. intros H.
  apply orb_true_iff in H as [->| ->]; cbn [orb];
    [reflexivity|].
  rewrite orb_true_r. reflexivity.
Qed.

Lemma where_select_list (s : Statement) (e : Expr) :
  select_list_refused (where_ s e) = select_list_refused s.
Proof. now destruct s. Qed.

Lemma order_by_select_list (s : Statement) (e : Expr) :
  select_list_refused (order_by s e) = select_list_refused s.
Proof. now destruct s. Qed.

Lemma limit_select_list (s : Statement) (n : Z) :
  select_list_refused (limit s n) = select_list_refused s.
Proof. now destruct s. Qed.

Lemma offset_select_list (s : Statement) (n : Z) :
  select_list_refused (offset s n) = select_list_refused s.
Proof. now destruct s. Qed.

(** Counting the rows of a refused select is refused as well. *)
Lemma count_of_refused (s : Statement) :
  refused s = true -> refused (count_of s) = true.
Proof.
  intros H. unfold count_of, select. cbn [refused]. rewrite H.
  apply orb_true_r.
Qed.

End Refusal.

(* ================================================================= *)
(** ** How handlers move the store *)

Section Evolution.

Context {G : PRNG} {E : Engine}.

Lemma evolves_refl (w : World) : evolves w w.
Proof. repeat split; constructor. Qed.

Lemma evolves_trans (a b c : World) :
  evolves a b -> evolves b c -> evolves a c.
Proof.
  intros (C1 & H1 & D1 & F1) (C2 & H2 & D2 & F2).
  repeat split; try congruence.
  now apply favorites_evolve_trans with (favorites (database b)).
Qed.

Lemma evolves_wf (w w' : World) :
  evolves w w' -> db_wf (database w) -> db_wf (database w').
Proof.
  intros (C & H & D & F) Hwf.
  destruct (favorites_evolve_keys _ _ F
              (conj (wf_favorites_pk _ Hwf) (wf_favorites_unique _ Hwf)))
    as [Hid Hpair].
  constructor; rewrite ?C, ?H, ?D; try apply Hwf; assumption.
Qed.

Lemma stable_ret {A : Type} (a : A) : stable (ret a).
Proof. intros w. apply evolves_refl. Qed.

Lemma stable_raise {A : Type} (s : Z) (d : string) :
  stable (raise s d : M A).
Proof. intros w. apply evolves_refl. Qed.

Lemma stable_throw {A : Type} (e : Exc) : stable (throw e : M A).
Proof. intros w. apply evolves_refl. Qed.

Lemma stable_bind {A B : Type} (c : M A) (k : A -> M B) :
  stable c -> (forall a, stable (k a)) -> stable (bind c k).
Proof.
  intros Hc Hk w. unfold bind. specialize (Hc w).
  destruct (c w) as [[a|s d|e] w']; cbn [snd] in *; try assumption.
  apply evolves_trans with w'; [assumption|apply Hk].
Qed.

Lemma stable_except {A : Type} (c h : M A) :
  stable c -> stable h -> stable (except_IntegrityError c h).
Proof.
  intros Hc Hh w. unfold except_IntegrityError. specialize (Hc w).
  destruct (c w) as [[a|s d|[| | |]] w']; cbn [snd] in *; try assumption.
  apply evolves_trans with w'; [assumption|apply Hh].
Qed.

Lemma stable_fetch_one {A : Type} (q : Query A) : stable (fetch_one q).
Proof. intros w. apply evolves_refl. Qed.

Lemma stable_fetch_all {A : Type} (q : Query A) : stable (fetch_all q).
Proof. intros w. apply evolves_refl. Qed.

Lemma stable_fetch_count {A : Type} (q : Query A) : stable (fetch_count q).
Proof. intros w. apply evolves_refl. Qed.

Lemma stable_fetch_page {A : Type} (n k : Z) (q : Query A) :
  stable (fetch_page n k q).
Proof.
  intros w. unfold fetch_page. destruct (_ && _); apply evolves_refl.
Qed.

Lemma stable_fetch_val (s : SQL.Statement) : stable (fetch_val s).
Proof.
  intros w. unfold fetch_val.
  destruct (execute_scalar s (database w)); apply evolves_refl.
Qed.

Lemma stable_fetch_rows (s : SQL.Statement) : stable (fetch_rows s).
Proof.
  intros w. unfold fetch_rows.
  destruct (execute s (database w)); apply evolves_refl.
Qed.

Lemma stable_fetch_row (s : SQL.Statement) : stable (fetch_row s).
Proof.
  intros w. unfold fetch_row.
  destruct (execute s (database w)); apply evolves_refl.
Qed.

Lemma stable_date_today : stable date_today.
Proof. intros w. apply evolves_refl. Qed.

Lemma stable_random_seed (n : Z) : stable (random_seed n).
Proof. intros w. repeat split; constructor. Qed.

Lemma stable_random_randint (a b : Z) : stable (random_randint a b).
Proof. intros w. repeat split; constructor. Qed.

Lemma stable_validate (ok : bool) : stable (validate ok).
Proof. destruct ok; [apply stable_ret|apply stable_raise]. Qed.

Lemma stable_write (w : World) (fs : list Favorite) :
  favorites_change (favorites (database w)) fs ->
  evolves w (set_favorites fs w).
Proof.
  intros Hch. repeat split.
  cbn. eapply evolve_step; [constructor|exact Hch].
Qed.

(** The insert moves the sequence, which no key of the other tables
    reads, and [favorites] by at most one row. *)
Lemma stable_execute_insert (u : Z) (h : string) (n : option string) :
  stable (execute_insert u h n).
Proof.
  intros w. unfold execute_insert, Store.insert_favorite.
  destruct (_ || _) eqn:Eq; cbn [snd]; repeat split; cbn.
  - constructor.
  - apply orb_false_iff in Eq as [Hpair Hkey].
    eapply evolve_step; [constructor|now constructor].
Qed.

Lemma stable_execute_delete (cond : Favorite -> bool) :
  stable (execute_delete cond).
Proof. intros w. apply stable_write. constructor. Qed.

Lemma stable_execute_update (cond : Favorite -> bool) (n : option string) :
  stable (execute_update cond n).
Proof. intros w. apply stable_write. constructor. Qed.

End Evolution.

Create HintDb stable.
#[export] Hint Resolve stable_ret stable_raise stable_throw stable_fetch_one
  stable_fetch_all stable_fetch_count stable_fetch_page stable_fetch_val
  stable_fetch_rows stable_fetch_row stable_date_today stable_random_seed
  stable_random_randint stable_validate stable_execute_insert
  stable_execute_delete stable_execute_update : stable.

(** Walk a handler's body: binds, branches, then the primitives. *)
Ltac stable_body :=
  repeat first
    [ apply stable_bind; [|intros ?]
    | apply stable_except
    | match goal with
      | |- stable (match ?x with _ => _ end) => destruct x
      | |- stable (if ?b then _ else _) => destruct b
      end
    | solve [auto with stable] ].

(* ================================================================= *)
(** ** What the hadith endpoints answer *)

Section Hadiths.

Context {G : PRNG} {E : Engine}.

(** The select of [build_hadith_query] holds [bool_or] beside nineteen
    ungrouped columns, whatever the filters: the engine refuses it. *)
Lemma hadith_query_select_list (sp : option HadithSearchParams)
    (u : option Z) (bf : list (string * string)) :
  select_list_refused (build_hadith_query sp u bf) = true.
Proof.
  unfold build_hadith_query.
  destruct (base_conditions bf ++ search_conditions sp);
    [|rewrite Refusal.where_select_list]; reflexivity.
Qed.

Lemma hadith_query_refused (sp : option HadithSearchParams)
    (u : option Z) (bf : list (string * string)) :
  SQL.refused (build_hadith_query sp u bf) = true.
Proof. apply Refusal.by_select_list, hadith_query_select_list. Qed.

Lemma fetch_val_refused (s : SQL.Statement) (w : World) :
  SQL.refused s = true -> fetch_val s w = (Unhandled SQLError, w).
Proof.
  intros H. unfold fetch_val. now rewrite (execute_scalar_refused _ _ H).
Qed.

Lemma fetch_rows_refused (s : SQL.Statement) (w : World) :
  SQL.refused s = true -> fetch_rows s w = (Unhandled SQLError, w).
Proof.
  intros H. unfold fetch_rows. now rewrite (execute_refused _ _ H).
Qed.

Lemma fetch_row_refused (s : SQL.Statement) (w : World) :
  SQL.refused s = true -> fetch_row s w = (Unhandled SQLError, w).
Proof.
  intros H. unfold fetch_row. now rewrite (execute_refused _ _ H).
Qed.

Lemma hadith_count_refused (sp : option HadithSearchParams)
    (u : option Z) (bf : list (string * string)) (w : World) :
  fetch_val (SQL.count_of (build_hadith_query sp u bf)) w
  = (Unhandled SQLError, w).
Proof.
  apply fetch_val_refused, Refusal.count_of_refused, hadith_query_refused.
Qed.

(** The daily pick: a date that does not parse is answered 400 before
    anything else; otherwise the generator is seeded and the count is
    refused. *)
Lemma daily_run (date_param : option string) (u : option Z) (w : World) :
  get_daily_hadith date_param u w
  = match target_date date_param w with
    | Some dt => (Unhandled SQLError, reseeded dt w)
    | None => (HTTPException 400 "Invalid date format. Use YYYY-MM-DD", w)
    end.
Proof.
  unfold get_daily_hadith, target_date.
  destruct (truthy date_param) as [s|];
    [destruct (Calendar.strptime s) as [dt|]|];
    unfold bind at 1; cbn [ret raise date_today]; try reflexivity;
    unfold bind at 1, random_seed; unfold bind at 1;
    now rewrite hadith_count_refused.
Qed.

Lemma random_run (collection_id : option string)
    (grade : option HadithGrade) (exclude_favorites : bool)
    (u : option Z) (w : World) :
  get_random_hadith collection_id grade exclude_favorites u w
  = (Unhandled SQLError, w).
Proof.
  unfold get_random_hadith, bind at 1.
  rewrite fetch_val_refused; [reflexivity|].
  apply Refusal.count_of_refused, Refusal.by_select_list.
  destruct exclude_favorites, (truthy_id u);
    rewrite ?Refusal.where_select_list; apply hadith_query_select_list.
Qed.

Lemma get_hadith_run (hadith_id : string) (u : option Z) (w : World) :
  get_hadith hadith_id u w = (Unhandled SQLError, w).
Proof.
  unfold get_hadith, bind.
  rewrite fetch_row_refused; [reflexivity|].
  apply Refusal.by_select_list.
  rewrite Refusal.where_select_list. apply hadith_query_select_list.
Qed.

(** *** The list endpoints *)

Lemma validate_ok (p s : Z) :
  valid_page p s -> (1 <=? p) && (1 <=? s) && (s <=? 100) = true.
Proof.
  intros [Hp [Hs Hs']].
  rewrite !andb_true_iff, !Z.leb_le. lia.
Qed.

Lemma validate_bad (p s : Z) :
  ~ valid_page p s -> (1 <=? p) && (1 <=? s) && (s <=? 100) = false.
Proof.
  intros Hn. apply not_true_is_false. intros Ht. apply Hn.
  rewrite !andb_true_iff, !Z.leb_le in Ht. unfold valid_page. lia.
Qed.

Lemma valid_page_dec (p s : Z) : {valid_page p s} + {~ valid_page p s}.
Proof.
  unfold valid_page.
  destruct (Z_le_dec 1 p), (Z_le_dec 1 s), (Z_le_dec s 100);
    (left; lia) || (right; lia).
Qed.

Lemma list_target_dec (e : ListEndpoint) (d : DB) :
  {list_target e d} + {~ list_target e d}.
Proof.
  destruct e; cbn [list_target]; [now left| |]; apply in_dec, string_dec.
Qed.

Lemma list_invalid (e : ListEndpoint) (p s : Z) (u : option Z) (w : World) :
  ~ valid_page p s ->
  list_handler e p s u w = (HTTPException 422 "validation error", w).
Proof.
  intros Hn. apply validate_bad in Hn.
  destruct e; cbn [list_handler];
    unfold get_hadiths, get_hadiths_by_collection, get_hadiths_by_chapter,
      bind at 1; now rewrite Hn.
Qed.

Lemma list_missing (e : ListEndpoint) (p s : Z) (u : option Z) (w : World) :
  valid_page p s -> ~ list_target e (database w) ->
  list_handler e p s u w = (HTTPException 404 (missing_detail e), w).
Proof.
  intros Hv Hn. apply validate_ok in Hv.
  destruct e as [q c ch g n|c g|ch]; cbn [list_handler list_target] in *.
  - now destruct Hn.
  - unfold get_hadiths_by_collection, bind at 1. rewrite Hv.
    cbn [validate ret]. unfold bind at 1, fetch_one.
    now rewrite (filter_absent c_id c _ Hn).
  - unfold get_hadiths_by_chapter, bind at 1. rewrite Hv.
    cbn [validate ret]. unfold bind at 1, fetch_one.
    now rewrite (filter_absent ch_id ch _ Hn).
Qed.

(** A valid page of an existing target: the count is refused. *)
Lemma list_refused (e : ListEndpoint) (p s : Z) (u : option Z) (w : World) :
  valid_page p s -> list_target e (database w) ->
  list_handler e p s u w = (Unhandled SQLError, w).
Proof.
  intros Hv Ht. apply validate_ok in Hv.
  destruct e as [q c ch g n|c g|ch]; cbn [list_handler list_target] in *.
  - unfold get_hadiths, bind at 1. rewrite Hv. cbn [validate ret].
    unfold bind at 1. now rewrite hadith_count_refused.
  - unfold get_hadiths_by_collection, bind at 1. rewrite Hv.
    cbn [validate ret]. unfold bind at 1, fetch_one.
    destruct (found_by_key c_id c _ Ht) as (x & rest & ->).
    cbn [Store.fetch_one hd_error].
    unfold bind at 1. now rewrite hadith_count_refused.
  - unfold get_hadiths_by_chapter, bind at 1. rewrite Hv.
    cbn [validate ret]. unfold bind at 1, fetch_one.
    destruct (found_by_key ch_id ch _ Ht) as (x & rest & ->).
    cbn [Store.fetch_one hd_error].
    unfold bind at 1. now rewrite hadith_count_refused.
Qed.

(** No list request changes the world. *)
Lemma list_handler_world (e : ListEndpoint) (p s : Z) (u : option Z)
    (w : World) :
  snd (list_handler e p s u w) = w.
Proof.
  destruct (valid_page_dec p s) as [Hv|Hv];
    [destruct (list_target_dec e (database w)) as [Ht|Ht]|].
  - now rewrite list_refused.
  - now rewrite list_missing.
  - now rewrite list_invalid.
Qed.

End Hadiths.

(* ================================================================= *)
(** ** Favorites *)

Section Favorites.

Context {G : PRNG} {E : Engine}.

(** *** The joined selects of the router *)

(** Both name [literal], a function the engine does not have. *)
Lemma favorite_select_refused (e : SQL.Expr) :
  SQL.refused
    (SQL.where_ (SQL.select favorite_select_list favorite_tables) e) = true.
Proof.
  apply Refusal.by_select_list. rewrite Refusal.where_select_list.
  reflexivity.
Qed.

Lemma favorite_with_hadith_run (k u : Z) (w : World) :
  get_favorite_with_hadith k u w = (Unhandled SQLError, w).
Proof.
  unfold get_favorite_with_hadith, bind.
  now rewrite fetch_row_refused by apply favorite_select_refused.
Qed.

Lemma get_favorite_run (k u : Z) (w : World) :
  get_favorite k u w = (Unhandled SQLError, w).
Proof.
  unfold get_favorite, bind. now rewrite favorite_with_hadith_run.
Qed.

Lemma user_favorites_invalid (p s : Z) (c : option string) (u : Z)
    (w : World) :
  ~ valid_page p s ->
  get_user_favorites p s c u w = (HTTPException 422 "validation error", w).
Proof.
  intros Hn. apply validate_bad in Hn.
  unfold get_user_favorites, bind at 1. now rewrite Hn.
Qed.

(** Whatever the count answers, the listing is refused. *)
Lemma user_favorites_run (p s : Z) (c : option string) (u : Z) (w : World) :
  valid_page p s ->
  get_user_favorites p s c u w = (Unhandled SQLError, w).
Proof.
  intros Hv. apply validate_ok in Hv.
  unfold get_user_favorites, bind at 1. rewrite Hv. cbn [validate ret].
  unfold bind at 1, fetch_val.
  destruct (execute_scalar _ (database w)); [|reflexivity].
  unfold bind at 1. rewrite fetch_rows_refused; [reflexivity|].
  apply Refusal.by_select_list.
  rewrite Refusal.offset_select_list, Refusal.limit_select_list,
    Refusal.order_by_select_list.
  destruct (truthy c); rewrite ?Refusal.where_select_list; reflexivity.
Qed.

(** *** Every request moves the store by its writes *)

Lemma stable_get_favorite_with_hadith (k u : Z) :
  stable (get_favorite_with_hadith k u).
Proof. unfold get_favorite_with_hadith. stable_body. Qed.

Lemma stable_favorite_response (m : option string)
    (f : option FavoriteWithHadith) :
  stable (favorite_response m f).
Proof. unfold favorite_response. stable_body. Qed.

Lemma stable_as_FavoriteResponse (t : Toggled) :
  stable (as_FavoriteResponse t).
Proof. unfold as_FavoriteResponse. stable_body. Qed.

Hint Resolve stable_get_favorite_with_hadith stable_favorite_response
  stable_as_FavoriteResponse : stable.

Lemma stable_add_favorite (fd : FavoriteCreate) (u : Z) :
  stable (add_favorite fd u).
Proof. unfold add_favorite. stable_body. Qed.

Lemma stable_toggle_favorite (h : string) (u : Z) :
  stable (toggle_favorite h u).
Proof. unfold toggle_favorite. stable_body. Qed.

Lemma serve_evolves (r : Request) (w : World) : evolves w (serve r w).
Proof.
  destruct r; cbn [serve];
    match goal with
    | |- evolves ?w0 (snd (?c ?w0)) =>
        let H := fresh in assert (H : stable c); [|exact (H w0)]
    end.
  - unfold get_hadiths. stable_body.
  - unfold get_hadiths_by_collection. stable_body.
  - unfold get_hadiths_by_chapter. stable_body.
  - unfold get_daily_hadith. stable_body.
  - unfold get_random_hadith. stable_body.
  - apply stable_add_favorite.
  - unfold get_favorite. stable_body.
  - unfold update_favorite. stable_body.
  - unfold remove_favorite. stable_body.
  - unfold remove_favorite_by_hadith. stable_body.
  - apply stable_toggle_favorite.
Qed.

(** *** Presence of a (user, hadith) pair *)

Lemma absent_rows (u : Z) (h : string) (fs : list Favorite) :
  existsb (Store.same_pair u h) fs = false ->
  forall y, In y fs -> Store.same_pair u h y = false.
Proof.
  intros Habs y Hy. destruct (Store.same_pair u h y) eqn:Ey; [|reflexivity].
  rewrite <- Habs. symmetry. apply existsb_exists. now exists y.
Qed.

Lemma absent_filter (u : Z) (h : string) (d : DB) :
  present u h d = false -> select_favorites (Store.same_pair u h) d = [].
Proof.
  unfold present, select_favorites. intros He.
  apply filter_none. now apply absent_rows.
Qed.

Lemma selected_first {A : Type} (p : A -> bool) (l : list A) (x : A)
    (r : list A) :
  filter p l = x :: r -> In x l /\ p x = true.
Proof.
  intros Ef. apply filter_In. rewrite Ef. now left.
Qed.

Lemma present_filter (u : Z) (h : string) (d : DB) :
  present u h d = true ->
  exists e l,
    select_favorites (Store.same_pair u h) d = e :: l
    /\ In e (favorites d) /\ pair_of e = (u, h).
Proof.
  unfold present, select_favorites. intros He.
  apply existsb_exists in He as (f & Hin & Hf).
  destruct (filter (Store.same_pair u h) (favorites d)) as [|e l] eqn:Ef.
  - assert (Hx : In f (filter (Store.same_pair u h) (favorites d))).
    { apply filter_In. now split. }
    rewrite Ef in Hx. destruct Hx.
  - exists e, l. split; [reflexivity|].
    apply selected_first in Ef as [Hx1 Hx2].
    split; [assumption|now apply same_pair_iff].
Qed.

Lemma fetch_none_absent (u : Z) (h : string) (d : DB) :
  Store.fetch_one (select_favorites (Store.same_pair u h) d) = None ->
  present u h d = false.
Proof.
  unfold present, select_favorites, Store.fetch_one. intros Ef.
  destruct (existsb _ _) eqn:Ex; [|reflexivity].
  apply existsb_exists in Ex as (f & Hin & Hf).
  assert (Hx : In f (filter (Store.same_pair u h) (favorites d))).
  { apply filter_In. now split. }
  destruct (filter _ _); [destruct Hx|discriminate].
Qed.

Lemma select_hadith_found (hadith_id : string) (d : DB) :
  In hadith_id (map h_id (hadiths d)) ->
  exists h l, select_hadith hadith_id d = h :: l.
Proof. apply found_by_key. Qed.

Lemma select_hadith_in (hadith_id : string) (d : DB) (x : Hadith) :
  Store.fetch_one (select_hadith hadith_id d) = Some x ->
  In hadith_id (map h_id (hadiths d)).
Proof.
  unfold Store.fetch_one, select_hadith. intros Ef.
  destruct (filter _ (hadiths d)) as [|y l] eqn:Ey; [discriminate|].
  apply selected_first in Ey as [Hy Hk]. apply String.eqb_eq in Hk.
  rewrite <- Hk. now apply in_map.
Qed.

Lemma present_snoc (u : Z) (h : string) (n : option string) (k : Z)
    (d : DB) (fs : list Favorite) :
  favorites d = fs ++ [mkFavorite k u h n] -> present u h d = true.
Proof.
  intros Ef. unfold present. rewrite Ef, existsb_app.
  cbn [existsb]. unfold Store.same_pair at 2. cbn [f_user_id f_hadith_id].
  rewrite Z.eqb_refl, String.eqb_refl. cbn. apply orb_true_r.
Qed.

(** Deleting the selected row of a pair leaves the pair absent, the
    pair being unique. *)
Lemma delete_selected_absent (u : Z) (h : string) (d : DB) (e : Favorite) :
  favorites_unique d ->
  Store.fetch_one (select_favorites (Store.same_pair u h) d) = Some e ->
  present u h
    (with_favorites d
       (Store.delete_where (fun f => f_id f =? f_id e) (favorites d)))
  = false.
Proof.
  intros Hu He. unfold present. cbn [favorites with_favorites].
  destruct (existsb _ _) eqn:Ex; [|reflexivity]. exfalso.
  apply existsb_exists in Ex as (f & Hf & Hpf).
  unfold Store.delete_where in Hf. apply filter_In in Hf as [Hf Hne].
  unfold select_favorites in He.
  destruct (filter_pair_unique u h (favorites d) Hu) as [E0|(x & Ex)];
    rewrite ?E0, ?Ex in He; [discriminate|].
  injection He as ->.
  assert (Hx : In f (filter (Store.same_pair u h) (favorites d))).
  { apply filter_In. now split. }
  rewrite Ex in Hx. destruct Hx as [<-|[]].
  rewrite Z.eqb_refl in Hne. discriminate.
Qed.

(** Deleting under a condition does not touch the presence of the
    pairs the condition leaves alone. *)
Lemma existsb_after_delete (q cond : Favorite -> bool)
    (fs : list Favorite) :
  (forall x, q x = true -> cond x = false) ->
  existsb q (Store.delete_where cond fs) = existsb q fs.
Proof.
  intros Hq. unfold Store.delete_where.
  induction fs as [|x l IH]; [reflexivity|].
  cbn [filter existsb]. destruct (cond x) eqn:Ec; cbn [negb existsb].
  - destruct (q x) eqn:Eq; [|exact IH].
    rewrite (Hq x Eq) in Ec. discriminate.
  - now rewrite IH.
Qed.

(** Under the primary key, a row of one user is invisible to the
    selection by key and another user. *)
Lemma owned_by_other (f : Favorite) (b : Z) (fs : list Favorite) :
  NoDup (map f_id fs) -> In f fs -> b <> f_user_id f ->
  forall x, In x fs -> owned (f_id f) b x = false.
Proof.
  intros Hnd Hf Hb x Hx. unfold owned.
  destruct (Z.eqb_spec (f_id x) (f_id f)) as [Ek|_]; [|reflexivity].
  rewrite (NoDup_map_eq f_id fs x f Hnd Hx Hf Ek).
  destruct (Z.eqb_spec (f_user_id f) b); [congruence|reflexivity].
Qed.

Lemma owner_selects (f : Favorite) (fs : list Favorite) :
  In f fs ->
  exists e l, filter (owned (f_id f) (f_user_id f)) fs = e :: l.
Proof.
  intros Hf.
  assert (Hin : In f (filter (owned (f_id f) (f_user_id f)) fs)).
  { apply filter_In. split; [exact Hf|]. unfold owned.
    now rewrite !Z.eqb_refl. }
  destruct (filter _ fs) as [|e l]; [destruct Hin|]. now exists e, l.
Qed.

Lemma key_rows_owned (favorite_id u : Z) (d : DB) (e : Favorite)
    (l : list Favorite) :
  NoDup (map f_id (favorites d)) ->
  select_favorites (owned favorite_id u) d = e :: l ->
  forall x, In x (favorites d) -> (f_id x =? favorite_id) = true ->
            f_user_id x = u.
Proof.
  intros Hpk He x Hx Hid. apply Z.eqb_eq in Hid.
  apply selected_first in He as [He Ho]. unfold owned in Ho.
  apply andb_true_iff in Ho as [Ho1 Ho2].
  apply Z.eqb_eq in Ho1, Ho2.
  rewrite (NoDup_map_eq f_id _ x e Hpk Hx He); [assumption|congruence].
Qed.

(** *** The insert *)

(** On an absent pair the insert goes in under the next key, unless a
    row already sits under that key. *)
Lemma insert_cases (u : Z) (h : string) (n : option string) (w : World) :
  present u h (database w) = false ->
  execute_insert u h n w
  = (if existsb (fun f => f_id f =? favorites_id_seq (database w) + 1)
                (favorites (database w))
     then (Unhandled on_violation, sequence_moved 1 w)
     else (Ok (favorites_id_seq (database w) + 1), inserted u h n w)).
Proof.
  unfold present, execute_insert, Store.insert_favorite. intros ->.
  cbn [orb]. now destruct (existsb _ _).
Qed.

Lemma insert_run (u : Z) (h : string) (n : option string) (w : World) :
  present u h (database w) = false -> keys_issued (database w) ->
  execute_insert u h n w
  = (Ok (favorites_id_seq (database w) + 1), inserted u h n w).
Proof.
  intros Hp Hk. now rewrite (insert_cases u h n w Hp), issued_key_fresh.
Qed.

Lemma inserted_keys_issued (u : Z) (h : string) (n : option string)
    (w : World) :
  keys_issued (database w) -> keys_issued (database (inserted u h n w)).
Proof.
  intros Hk f. cbn. intros Hf.
  apply in_app_or in Hf as [Hf|[<-|[]]]; [|cbn; lia].
  specialize (Hk f Hf). lia.
Qed.

(** *** [add_favorite] *)

Lemma add_missing (fd : FavoriteCreate) (u : Z) (w : World) :
  ~ In (fc_hadith_id fd) (map h_id (hadiths (database w))) ->
  add_favorite fd u w = (HTTPException 404 "Hadith not found", w).
Proof.
  intros Hn. unfold add_favorite, bind, fetch_one, select_hadith.
  now rewrite (filter_absent h_id _ _ Hn).
Qed.

Lemma add_present (fd : FavoriteCreate) (u : Z) (w : World) :
  In (fc_hadith_id fd) (map h_id (hadiths (database w))) ->
  present u (fc_hadith_id fd) (database w) = true ->
  add_favorite fd u w = (HTTPException 400 "Hadith already in favorites", w).
Proof.
  intros Hin Hp.
  destruct (select_hadith_found _ _ Hin) as (h & l & Hh).
  destruct (present_filter u _ _ Hp) as (e & l' & He & _).
  unfold add_favorite, bind, fetch_one.
  rewrite Hh. cbn [Store.fetch_one hd_error]. rewrite He. reflexivity.
Qed.

(** On an absent pair the function reaches its [try]: the insert, and
    then the re-read that the engine refuses. *)
Lemma add_absent_steps (fd : FavoriteCreate) (u : Z) (w : World) :
  In (fc_hadith_id fd) (map h_id (hadiths (database w))) ->
  present u (fc_hadith_id fd) (database w) = false ->
  add_favorite fd u w
  = except_IntegrityError
      (bind (execute_insert u (fc_hadith_id fd) (fc_notes fd))
         (fun favorite_id =>
            bind (get_favorite_with_hadith favorite_id u)
              (favorite_response
                 (Some "Hadith added to favorites successfully"))))
      (raise 400 "Hadith already in favorites") w.
Proof.
  intros Hin Hp.
  destruct (select_hadith_found _ _ Hin) as (h & l & Hh).
  unfold add_favorite, bind at 1, fetch_one.
  rewrite Hh. cbn [Store.fetch_one hd_error].
  unfold bind at 1. rewrite (absent_filter u _ _ Hp). reflexivity.
Qed.

Lemma add_absent (fd : FavoriteCreate) (u : Z) (w : World) :
  In (fc_hadith_id fd) (map h_id (hadiths (database w))) ->
  present u (fc_hadith_id fd) (database w) = false ->
  keys_issued (database w) ->
  add_favorite fd u w
  = (Unhandled SQLError, inserted u (fc_hadith_id fd) (fc_notes fd) w).
Proof.
  intros Hin Hp Hk. rewrite (add_absent_steps fd u w Hin Hp).
  unfold except_IntegrityError, bind at 1.
  rewrite (insert_run _ _ _ _ Hp Hk).
  unfold bind. now rewrite favorite_with_hadith_run.
Qed.

(** *** [toggle_favorite] *)

Lemma toggle_missing (hadith_id : string) (u : Z) (w : World) :
  ~ In hadith_id (map h_id (hadiths (database w))) ->
  toggle_favorite hadith_id u w = (HTTPException 404 "Hadith not found", w).
Proof.
  intros Hn. unfold toggle_favorite, bind, fetch_one, select_hadith.
  now rewrite (filter_absent h_id _ _ Hn).
Qed.

(** On a present pair the row goes, and the route refuses the dict the
    function returns. *)
Lemma toggle_present (hadith_id : string) (u : Z) (w : World) :
  In hadith_id (map h_id (hadiths (database w))) ->
  present u hadith_id (database w) = true ->
  exists e,
    In e (favorites (database w))
    /\ pair_of e = (u, hadith_id)
    /\ Store.fetch_one
         (select_favorites (Store.same_pair u hadith_id) (database w))
       = Some e
    /\ toggle_favorite hadith_id u w
       = (Unhandled ResponseValidationError,
          set_favorites
            (Store.delete_where (fun f => f_id f =? f_id e)
               (favorites (database w))) w).
Proof.
  intros Hin Hp.
  destruct (select_hadith_found _ _ Hin) as (h & l & Hh).
  destruct (present_filter u _ _ Hp) as (e & l' & He & Hine & Hpe).
  exists e. repeat split; try assumption.
  - now rewrite He.
  - unfold toggle_favorite, bind, fetch_one.
    rewrite Hh. cbn [Store.fetch_one hd_error]. rewrite He. reflexivity.
Qed.

Lemma toggle_absent_steps (hadith_id : string) (u : Z) (w : World) :
  In hadith_id (map h_id (hadiths (database w))) ->
  present u hadith_id (database w) = false ->
  toggle_favorite hadith_id u w
  = bind
      (bind (execute_insert u hadith_id None)
         (fun favorite_id =>
            bind (get_favorite_with_hadith favorite_id u)
              (fun favorite =>
                 bind (favorite_response
                         (Some "Hadith added to favorites successfully")
                         favorite)
                      (fun r => ret (Added r)))))
      as_FavoriteResponse w.
Proof.
  intros Hin Hp.
  destruct (select_hadith_found _ _ Hin) as (h & l & Hh).
  unfold toggle_favorite, bind at 1. unfold bind at 1, fetch_one.
  rewrite Hh. cbn [Store.fetch_one hd_error].
  unfold bind at 1. rewrite (absent_filter u _ _ Hp).
  cbn [Store.fetch_one hd_error]. reflexivity.
Qed.

Lemma toggle_absent (hadith_id : string) (u : Z) (w : World) :
  In hadith_id (map h_id (hadiths (database w))) ->
  present u hadith_id (database w) = false ->
  keys_issued (database w) ->
  toggle_favorite hadith_id u w
  = (Unhandled SQLError, inserted u hadith_id None w).
Proof.
  intros Hin Hp Hk. rewrite (toggle_absent_steps hadith_id u w Hin Hp).
  unfold bind at 1. unfold bind at 1.
  rewrite (insert_run _ _ _ _ Hp Hk).
  unfold bind at 1. now rewrite favorite_with_hadith_run.
Qed.

(** *** The other handlers *)

Lemma remove_favorite_run (favorite_id u : Z) (w : World) :
  remove_favorite favorite_id u w
  = match select_favorites (owned favorite_id u) (database w) with
    | [] => (HTTPException 404 "Favorite not found", w)
    | _ :: _ =>
        (Ok (mkAck "Favorite removed successfully"),
         set_favorites
           (Store.delete_where (fun f => f_id f =? favorite_id)
              (favorites (database w))) w)
    end.
Proof.
  unfold remove_favorite, bind, fetch_one.
  destruct (select_favorites _ _); reflexivity.
Qed.

Lemma remove_by_hadith_run (hadith_id : string) (u : Z) (w : World) :
  remove_favorite_by_hadith hadith_id u w
  = match select_favorites (Store.same_pair u hadith_id) (database w) with
    | [] => (HTTPException 404 "Hadith not in favorites", w)
    | _ :: _ =>
        (Ok (mkAck "Favorite removed successfully"),
         set_favorites
           (Store.delete_where (Store.same_pair u hadith_id)
              (favorites (database w))) w)
    end.
Proof.
  unfold remove_favorite_by_hadith, bind, fetch_one.
  destruct (select_favorites _ _); reflexivity.
Qed.

(** The update is written before the re-read that the engine refuses. *)
Lemma update_favorite_run (favorite_id : Z) (notes : option string)
    (u : Z) (w : World) :
  update_favorite favorite_id notes u w
  = match select_favorites (owned favorite_id u) (database w) with
    | [] => (HTTPException 404 "Favorite not found", w)
    | _ :: _ =>
        (Unhandled SQLError,
         set_favorites
           (Store.update_notes (fun f => f_id f =? favorite_id) notes
              (favorites (database w))) w)
    end.
Proof.
  unfold update_favorite, bind at 1, fetch_one.
  destruct (select_favorites _ _); [reflexivity|].
  cbn [Store.fetch_one hd_error]. unfold bind at 1, execute_update.
  unfold bind. now rewrite favorite_with_hadith_run.
Qed.

End Favorites.

(* ================================================================= *)
(** ** What a request leaves in the store *)

Section Requests.

Context {G : PRNG} {E : Engine}.

Lemma daily_keeps_store (date_param : option string) (u : option Z)
    (w : World) :
  database (snd (get_daily_hadith date_param u w)) = database w
  /\ today (snd (get_daily_hadith date_param u w)) = today w.
Proof.
  rewrite daily_run. now destruct (target_date date_param w).
Qed.

Lemma add_favorite_acts (fd : FavoriteCreate) (u : Z) (w : World) :
  acts_for (database w) u (favorites (database (snd (add_favorite fd u w)))).
Proof.
  destruct (in_dec string_dec (fc_hadith_id fd)
              (map h_id (hadiths (database w)))) as [Hin|Hn];
    [|rewrite (add_missing fd u w Hn); constructor].
  destruct (present u (fc_hadith_id fd) (database w)) eqn:Hp;
    [rewrite (add_present fd u w Hin Hp); constructor|].
  rewrite (add_absent_steps fd u w Hin Hp).
  unfold except_IntegrityError, bind at 1.
  rewrite (insert_cases _ _ _ _ Hp).
  destruct (existsb _ _).
  - destruct on_violation; cbn; constructor.
  - unfold bind. rewrite favorite_with_hadith_run. cbn.
    now apply acts_insert.
Qed.

Lemma toggle_favorite_acts (h : string) (u : Z) (w : World) :
  NoDup (map f_id (favorites (database w))) ->
  acts_for (database w) u (favorites (database (snd (toggle_favorite h u w)))).
Proof.
  intros Hpk.
  destruct (in_dec string_dec h (map h_id (hadiths (database w))))
    as [Hin|Hn]; [|rewrite (toggle_missing h u w Hn); constructor].
  destruct (present u h (database w)) eqn:Hp.
  - destruct (toggle_present h u w Hin Hp) as (e & He & Hpe & _ & ->).
    cbn. apply acts_delete. intros x Hx Hid. apply Z.eqb_eq in Hid.
    rewrite (NoDup_map_eq f_id _ x e Hpk Hx He Hid).
    unfold pair_of in Hpe. congruence.
  - rewrite (toggle_absent_steps h u w Hin Hp).
    unfold bind at 1. unfold bind at 1.
    rewrite (insert_cases _ _ _ _ Hp).
    destruct (existsb _ _); [cbn; constructor|].
    unfold bind at 1. rewrite favorite_with_hadith_run. cbn.
    now apply acts_insert.
Qed.

(** A request of the hadiths router leaves the store as it is; a
    favorites request acts on the rows of its user. *)
Lemma serve_acts (r : Request) (w : World) :
  NoDup (map f_id (favorites (database w))) ->
  match requester r with
  | Some u => acts_for (database w) u (favorites (database (serve r w)))
  | None => database (serve r w) = database w
  end.
Proof.
  intros Hpk.
  destruct r as [q c ch g n p s u|c p s g u|ch p s u|dp u|c g ex u
                |fd u|k u|k n u|k u|h u|h u];
    cbn [requester serve].
  - now rewrite <- (list_handler_world (AllHadiths q c ch g n) p s u w) at 2.
  - now rewrite <- (list_handler_world (ByCollection c g) p s u w) at 2.
  - now rewrite <- (list_handler_world (ByChapter ch) p s u w) at 2.
  - apply daily_keeps_store.
  - now rewrite random_run.
  - apply add_favorite_acts.
  - rewrite get_favorite_run. constructor.
  - rewrite update_favorite_run.
    destruct (select_favorites _ _) as [|e l] eqn:Es; [constructor|].
    cbn. apply acts_update. now apply (key_rows_owned k u _ e l).
  - rewrite remove_favorite_run.
    destruct (select_favorites _ _) as [|e l] eqn:Es; [constructor|].
    cbn. apply acts_delete. now apply (key_rows_owned k u _ e l).
  - rewrite remove_by_hadith_run.
    destruct (select_favorites _ _) as [|e l] eqn:Es; [constructor|].
    cbn. apply acts_delete. intros x _ Hx.
    unfold Store.same_pair in Hx. apply andb_true_iff in Hx as [Hx _].
    now apply Z.eqb_eq.
  - now apply toggle_favorite_acts.
Qed.

Lemma others_after (d : DB) (u : Z) (fs' : list Favorite) :
  acts_for d u fs' -> others u fs' = others u (favorites d).
Proof.
  intros [|k h n Hin Habs|cond Hc|cond n Hc]; unfold others.
  - reflexivity.
  - rewrite filter_app. cbn [filter f_user_id].
    rewrite Z.eqb_refl. cbn. apply app_nil_r.
  - unfold Store.delete_where.
    induction (favorites d) as [|x l IH]; [reflexivity|].
    cbn [filter].
    destruct (cond x) eqn:Ex; cbn [negb].
    + rewrite (Hc x (or_introl eq_refl) Ex), Z.eqb_refl. cbn [negb].
      apply IH. intros y Hy. apply Hc. now right.
    + cbn [filter]. destruct (negb (f_user_id x =? u)).
      * f_equal. apply IH. intros y Hy. apply Hc. now right.
      * apply IH. intros y Hy. apply Hc. now right.
  - unfold Store.update_notes.
    induction (favorites d) as [|x l IH]; [reflexivity|].
    cbn [map filter].
    destruct (cond x) eqn:Ex; cbn [f_user_id].
    + rewrite (Hc x (or_introl eq_refl) Ex), Z.eqb_refl. cbn [negb].
      apply IH. intros y Hy. apply Hc. now right.
    + destruct (negb (f_user_id x =? u)).
      * f_equal. apply IH. intros y Hy. apply Hc. now right.
      * apply IH. intros y Hy. apply Hc. now right.
Qed.

Lemma ref_after (d : DB) (u : Z) (fs' : list Favorite) :
  acts_for d u fs' ->
  favorites_ref d ->
  forall f, In f fs' -> In (f_hadith_id f) (map h_id (hadiths d)).
Proof.
  intros [|k h n Hin Habs|cond Hc|cond n Hc] Href f Hf.
  - now apply Href.
  - apply in_app_or in Hf as [Hf|[<-|[]]]; [now apply Href|exact Hin].
  - unfold Store.delete_where in Hf. apply filter_In in Hf as [Hf _].
    now apply Href.
  - unfold Store.update_notes in Hf.
    apply in_map_iff in Hf as (x & <- & Hx).
    destruct (cond x); cbn [f_hadith_id]; now apply Href.
Qed.

Lemma reachable_keys (w : World) :
  reachable w ->
  NoDup (map f_id (favorites (database w)))
  /\ NoDup (map pair_of (favorites (database w))).
Proof.
  induction 1 as [w H0|w r _ IH].
  - rewrite H0. split; constructor.
  - destruct (serve_evolves r w) as (_ & _ & _ & He).
    exact (favorites_evolve_keys _ _ He IH).
Qed.

Lemma serve_keeps_ref (r : Request) (w : World) :
  NoDup (map f_id (favorites (database w))) ->
  favorites_ref (database w) ->
  favorites_ref (database (serve r w)).
Proof.
  intros Hpk Href. pose proof (serve_acts r w Hpk) as Ha.
  destruct (serve_evolves r w) as (_ & _ & Hh & _).
  destruct (requester r) as [u|].
  - intros f Hf. rewrite Hh. now apply (ref_after _ u _ Ha Href).
  - now rewrite Ha.
Qed.

End Requests.

(* ================================================================= *)
(** ** The claims on the daily pick, the listings and the favorites *)

Section Claims.

Context {G : PRNG} {E : Engine}.

Lemma target_date_given (d : string) (w : World) :
  d <> "" -> target_date (Some d) w = Calendar.strptime d.
Proof.
  intros Hd. unfold target_date, truthy.
  destruct (String.eqb_spec d ""); [contradiction|reflexivity].
Qed.

(** C1. [GET /hadiths/daily] called twice with one valid date returns
    no hadith either time, whatever the store holds: both calls end in
    the error of the engine, which refuses the counting select, and
    the store is as it was. *)
Theorem daily_pick_returns_no_hadith (d : string) (dt : Calendar.date)
    (u1 u2 : option Z) (w1 w2 : World) :
  d <> "" -> Calendar.strptime d = Some dt ->
  fst (get_daily_hadith (Some d) u1 w1) = Unhandled SQLError
  /\ fst (get_daily_hadith (Some d) u2 w2) = Unhandled SQLError
  /\ database (snd (get_daily_hadith (Some d) u1 w1)) = database w1
  /\ database (snd (get_daily_hadith (Some d) u2 w2)) = database w2.
Proof.
  intros Hd Hdt. rewrite !daily_run, !(target_date_given d _ Hd), Hdt.
  now repeat split.
Qed.

(** C2. For a date the handler accepts, the daily pick seeds the
    generator with the date's ordinal and stops at its count: the
    counting select is one the engine refuses, so no integer is drawn
    and no row is fetched. *)
Theorem daily_pick_stops_at_count (date_param : option string)
    (dt : Calendar.date) (u : option Z) (w : World) :
  target_date date_param w = Some dt ->
  SQL.refused
    (SQL.count_of (build_hadith_query None u [("grade", "Sahih")])) = true
  /\ get_daily_hadith date_param u w = (Unhandled SQLError, reseeded dt w).
Proof.
  intros Hdt. split.
  - apply Refusal.count_of_refused, hadith_query_refused.
  - now rewrite daily_run, Hdt.
Qed.

(** C3. For every filter, a list endpoint asked for a valid page of an
    existing target returns no slice: it ends in the error of the
    engine and leaves the world as it was. *)
Theorem list_page_raises (e : ListEndpoint) (p s : Z) (u : option Z)
    (w : World) :
  valid_page p s -> list_target e (database w) ->
  list_handler e p s u w = (Unhandled SQLError, w).
Proof. apply list_refused. Qed.

(** C4. No request to a list endpoint is answered with pagination
    metadata: whatever the filter, the page and the page size, the
    answer is an error, also for a page beyond the last. *)
Theorem list_page_never_answers (e : ListEndpoint) (p s : Z) (u : option Z)
    (w : World) (resp : HadithsResponse) :
  fst (list_handler e p s u w) <> Ok resp.
Proof.
  destruct (valid_page_dec p s) as [Hv|Hv];
    [destruct (list_target_dec e (database w)) as [Ht|Ht]|].
  - now rewrite list_refused.
  - now rewrite list_missing.
  - now rewrite list_invalid.
Qed.

(** C5. After a daily call with date [d], the generator of the process
    is the one seeded with the ordinal of [d], whatever it was before:
    every draw made from it next is fixed by the date.  It is the
    generator [get_random_hadith] is written to draw from; that
    handler ends in the error of the engine before it draws and
    leaves the generator so. *)
Theorem daily_seeds_the_shared_generator (d : string) (dt : Calendar.date)
    (u u' : option Z) (w1 w2 : World) (c : option string)
    (g : option HadithGrade) (ex : bool) :
  d <> "" -> Calendar.strptime d = Some dt ->
  let after1 := snd (get_daily_hadith (Some d) u w1) in
  let after2 := snd (get_daily_hadith (Some d) u w2) in
  random after1 = seed (Calendar.toordinal dt)
  /\ random after2 = seed (Calendar.toordinal dt)
  /\ (forall a b,
        fst (random_randint a b after1)
        = Ok (fst (randint a b (seed (Calendar.toordinal dt))))
        /\ fst (random_randint a b after2)
           = Ok (fst (randint a b (seed (Calendar.toordinal dt)))))
  /\ get_random_hadith c g ex u' after1 = (Unhandled SQLError, after1)
  /\ get_random_hadith c g ex u' after2 = (Unhandled SQLError, after2).
Proof.
  intros Hd Hdt after1 after2. subst after1 after2.
  rewrite !daily_run, !(target_date_given d _ Hd), Hdt.
  cbn [snd reseeded random]. repeat split; apply random_run.
Qed.

(** C6. For a user and an existing hadith, on a store whose keys came
    from the sequence: [toggle_favorite] on an absent pair inserts one
    row and then ends in the error of the engine instead of returning
    the row; on a present pair it deletes the row and then ends in the
    error of the response model instead of returning the
    acknowledgment.  The pair's presence flips either way, and two
    toggles in a row leave it as it was. *)
Theorem toggle_flips_without_answer (hadith_id : string) (u : Z)
    (w : World) :
  In hadith_id (map h_id (hadiths (database w))) ->
  keys_issued (database w) ->
  favorites_unique (database w) ->
  let r := toggle_favorite hadith_id u w in
  (present u hadith_id (database w) = false ->
   fst r = Unhandled SQLError
   /\ favorites (database (snd r))
      = favorites (database w)
        ++ [mkFavorite (favorites_id_seq (database w) + 1) u hadith_id None]
   /\ present u hadith_id (database (snd r)) = true)
  /\ (present u hadith_id (database w) = true ->
      fst r = Unhandled ResponseValidationError
      /\ (exists e,
            In e (favorites (database w))
            /\ pair_of e = (u, hadith_id)
            /\ favorites (database (snd r))
               = Store.delete_where (fun f => f_id f =? f_id e)
                   (favorites (database w)))
      /\ present u hadith_id (database (snd r)) = false)
  /\ present u hadith_id
       (database (snd (toggle_favorite hadith_id u (snd r))))
     = present u hadith_id (database w).
Proof.
  intros Hin Hk Hu r.
  assert (Habs : forall v,
            In hadith_id (map h_id (hadiths (database v))) ->
            keys_issued (database v) ->
            present u hadith_id (database v) = false ->
            toggle_favorite hadith_id u v
            = (Unhandled SQLError, inserted u hadith_id None v)).
  { intros v Hv Hkv Hp. now apply toggle_absent. }
  assert (Hpres : forall v,
            In hadith_id (map h_id (hadiths (database v))) ->
            favorites_unique (database v) ->
            present u hadith_id (database v) = true ->
            exists e,
              In e (favorites (database v))
              /\ pair_of e = (u, hadith_id)
              /\ toggle_favorite hadith_id u v
                 = (Unhandled ResponseValidationError,
                    set_favorites
                      (Store.delete_where (fun f => f_id f =? f_id e)
                         (favorites (database v))) v)
              /\ present u hadith_id
                   (with_favorites (database v)
                      (Store.delete_where (fun f => f_id f =? f_id e)
                         (favorites (database v)))) = false).
  { intros v Hv Huv Hp.
    destruct (toggle_present hadith_id u v Hv Hp)
      as (e & He & Hpe & Hsel & Eq).
    exists e. repeat split; try assumption.
    now apply delete_selected_absent. }
  subst r. split; [|split].
  - intros Hp. rewrite (Habs w Hin Hk Hp). cbn [fst snd].
    repeat split. now apply present_snoc with None
      (favorites_id_seq (database w) + 1) (favorites (database w)).
  - intros Hp. destruct (Hpres w Hin Hu Hp) as (e & He & Hpe & -> & Hgone).
    cbn [fst snd]. split; [reflexivity|]. split; [|exact Hgone].
    now exists e.
  - destruct (present u hadith_id (database w)) eqn:Hp.
    + destruct (Hpres w Hin Hu Hp) as (e & He & Hpe & -> & Hgone).
      cbn [snd]. rewrite Habs; [|exact Hin| |exact Hgone].
      * cbn [snd]. now apply present_snoc with None
          (favorites_id_seq (database w) + 1)
          (Store.delete_where (fun f => f_id f =? f_id e)
             (favorites (database w))).
      * intros f Hf. cbn in Hf. unfold Store.delete_where in Hf.
        apply filter_In in Hf as [Hf _]. cbn. now apply Hk.
    + rewrite (Habs w Hin Hk Hp). cbn [snd].
      destruct (Hpres (inserted u hadith_id None w)) as (e & _ & _ & -> & Hgone).
      * exact Hin.
      * unfold favorites_unique. cbn.
        apply NoDup_map_snoc; [exact Hu|]. now apply absent_not_in.
      * now apply present_snoc with None
          (favorites_id_seq (database w) + 1) (favorites (database w)).
      * exact Hgone.
Qed.

(** C7. In every reachable state each (user, hadith) pair has at most
    one favorite row; and from any state where that holds, adding,
    toggling and indeed every request lead to a state where it holds. *)
Theorem favorites_pair_unique (w : World) :
  (reachable w -> favorites_unique (database w))
  /\ (favorites_unique (database w) ->
      (forall fd u,
         favorites_unique (database (snd (add_favorite fd u w))))
      /\ (forall h u,
            favorites_unique (database (snd (toggle_favorite h u w))))
      /\ (forall r, favorites_unique (database (serve r w)))).
Proof.
  assert (Hstep : forall v r,
            favorites_unique (database v) ->
            favorites_unique (database (serve r v))).
  { intros v r Hu. destruct (serve_evolves r v) as (_ & _ & _ & Hev).
    exact (favorites_evolve_unique _ _ Hev Hu). }
  split.
  - intros Hr. induction Hr as [v Hv|v r _ IH].
    + unfold favorites_unique. rewrite Hv. constructor.
    + now apply Hstep.
  - intros Hu. repeat split.
    + intros fd u. exact (Hstep w (AddFavorite fd u) Hu).
    + intros h u. exact (Hstep w (ToggleFavorite h u) Hu).
    + intros r. now apply Hstep.
Qed.


(** C9. For a user and an existing hadith whose pair is present,
    [add_favorite] fails with 400 "Hadith already in favorites"; for a
    pair that is absent, [remove_favorite_by_hadith] fails with 404;
    either way the world is left as it was. *)
Theorem add_remove_check_start (fd : FavoriteCreate) (hadith_id : string)
    (u : Z) (w : World) :
  (In (fc_hadith_id fd) (map h_id (hadiths (database w))) ->
   present u (fc_hadith_id fd) (database w) = true ->
   add_favorite fd u w
   = (HTTPException 400 "Hadith already in favorites", w))
  /\ (present u hadith_id (database w) = false ->
      remove_favorite_by_hadith hadith_id u w
      = (HTTPException 404 "Hadith not in favorites", w)).
Proof.
  split.
  - apply add_present.
  - intros Habs. unfold remove_favorite_by_hadith, bind, fetch_one.
    rewrite (absent_filter u hadith_id _ Habs). reflexivity.
Qed.

(** C10. A favorite row of one user, addressed by its key by any other
    user: PUT and DELETE on [/favorites/{favorite_id}] answer 404
    "Favorite not found", while GET ends in the error of the engine,
    which refuses the select of [get_favorite_with_hadith]; none of
    the three returns the row, and each leaves the world as it was. *)
Theorem favorite_by_key_other_user (f : Favorite) (b : Z)
    (notes : option string) (w : World) :
  NoDup (map f_id (favorites (database w))) ->
  In f (favorites (database w)) ->
  b <> f_user_id f ->
  get_favorite (f_id f) b w = (Unhandled SQLError, w)
  /\ update_favorite (f_id f) notes b w
     = (HTTPException 404 "Favorite not found", w)
  /\ remove_favorite (f_id f) b w
     = (HTTPException 404 "Favorite not found", w).
Proof.
  intros Hnd Hf Hb.
  pose proof (owned_by_other f b _ Hnd Hf Hb) as Hother.
  assert (Hsel : select_favorites (owned (f_id f) b) (database w) = []).
  { unfold select_favorites. now apply filter_none. }
  repeat split.
  - apply get_favorite_run.
  - now rewrite update_favorite_run, Hsel.
  - now rewrite remove_favorite_run, Hsel.
Qed.

End Claims.

(* ================================================================= *)
(** * Part IV: further properties of the routers *)

(* ================================================================= *)
(** ** Picks, single hadiths and listings *)

Section MorePicks.

Context {G : PRNG} {E : Engine}.

(** X1.  [get_random_hadith] returns no hadith, whatever the filters,
    the caller and the store: the counting select is refused, the
    handler ends in the error of the engine before it draws, and the
    world, generator included, is as it was. *)
Theorem random_pick_raises (collection_id : option string)
    (grade : option HadithGrade) (exclude_favorites : bool)
    (u : option Z) (w : World) :
  SQL.refused
    (SQL.count_of
       (build_hadith_query None u
          ((match truthy collection_id with
            | Some c => [("collection_id", c)]
            | None => []
            end)
           ++
           (match grade with
            | Some g => [("grade", grade_value g)]
            | None => []
            end)))) = true
  /\ get_random_hadith collection_id grade exclude_favorites u w
     = (Unhandled SQLError, w).
Proof.
  split; [|apply random_run].
  apply Refusal.count_of_refused, hadith_query_refused.
Qed.

(** X5.  [get_hadith] answers neither a hadith nor 404 "Hadith not
    found": for an id the store holds and for one it does not, the
    select is refused and the handler ends in the error of the
    engine. *)
Theorem get_hadith_raises (hadith_id : string) (u : option Z) (w : World) :
  get_hadith hadith_id u w = (Unhandled SQLError, w)
  /\ (forall resp, fst (get_hadith hadith_id u w) <> Ok resp)
  /\ fst (get_hadith hadith_id u w) <> HTTPException 404 "Hadith not found".
Proof.
  rewrite get_hadith_run. repeat split; discriminate.
Qed.

(** X6.  Before a list endpoint reaches its select it answers 422 for
    a page or page size out of bounds, and 404 for a collection or
    chapter that does not exist; the world is left as it was. *)
Theorem list_handler_checks (e : ListEndpoint) (p s : Z) (u : option Z)
    (w : World) :
  (~ valid_page p s ->
   list_handler e p s u w = (HTTPException 422 "validation error", w))
  /\ (valid_page p s -> ~ list_target e (database w) ->
      list_handler e p s u w = (HTTPException 404 (missing_detail e), w)).
Proof.
  split; [apply list_invalid|apply list_missing].
Qed.

End MorePicks.

(* ================================================================= *)
(** ** Favorites, continued *)

Section MoreFavorites.

Context {G : PRNG} {E : Engine}.

Lemma sequence_moved_favorites (n : Z) (w : World) :
  favorites (database (sequence_moved n w)) = favorites (database w).
Proof. reflexivity. Qed.

(** Rows that are not of a pair stay when the pair's rows go. *)
Lemma delete_new_pair (u : Z) (h : string) (fs : list Favorite)
    (x : Favorite) :
  existsb (Store.same_pair u h) fs = false ->
  Store.same_pair u h x = true ->
  Store.delete_where (Store.same_pair u h) (fs ++ [x]) = fs.
Proof.
  intros Habs Hx. unfold Store.delete_where. rewrite filter_app.
  cbn [filter]. rewrite Hx. cbn [negb]. rewrite app_nil_r.
  pose proof (absent_rows u h fs Habs) as Hrows.
  induction fs as [|y l IH]; [reflexivity|].
  cbn [filter]. rewrite (Hrows y (or_introl eq_refl)). cbn [negb]. f_equal.
  apply IH.
  - cbn [existsb] in Habs. now apply orb_false_iff in Habs.
  - intros z Hz. apply Hrows. now right.
Qed.

Lemma same_pair_new (k u : Z) (h : string) (n : option string) :
  Store.same_pair u h (mkFavorite k u h n) = true.
Proof.
  unfold Store.same_pair. cbn. now rewrite Z.eqb_refl, String.eqb_refl.
Qed.

(** X11.  [add_favorite] answers 404 for a hadith that does not exist
    and 400 for a pair already present, writing nothing.  For an
    absent pair, on a store whose keys came from the sequence, the row
    is inserted under the next key and the handler then ends in the
    error of the engine instead of answering with the row; asked
    again, it answers 400. *)
Theorem add_favorite_outcome (fd : FavoriteCreate) (u : Z) (w : World) :
  (~ In (fc_hadith_id fd) (map h_id (hadiths (database w))) ->
   add_favorite fd u w = (HTTPException 404 "Hadith not found", w))
  /\ (In (fc_hadith_id fd) (map h_id (hadiths (database w))) ->
      present u (fc_hadith_id fd) (database w) = true ->
      add_favorite fd u w
      = (HTTPException 400 "Hadith already in favorites", w))
  /\ (In (fc_hadith_id fd) (map h_id (hadiths (database w))) ->
      present u (fc_hadith_id fd) (database w) = false ->
      keys_issued (database w) ->
      let w' := inserted u (fc_hadith_id fd) (fc_notes fd) w in
      add_favorite fd u w = (Unhandled SQLError, w')
      /\ add_favorite fd u w'
         = (HTTPException 400 "Hadith already in favorites", w')).
Proof.
  split; [apply add_missing|]. split; [apply add_present|].
  intros Hin Hp Hk w'. split; [now apply add_absent|].
  apply add_present; [exact Hin|].
  now apply present_snoc with (fc_notes fd)
    (favorites_id_seq (database w) + 1) (favorites (database w)).
Qed.

(** X12.  Adding an absent pair and then removing it by hadith leaves
    every table as it was, but not the sequence: the key given to the
    row is used up. *)
Theorem add_then_remove_moves_sequence (fd : FavoriteCreate) (u : Z)
    (w : World) :
  In (fc_hadith_id fd) (map h_id (hadiths (database w))) ->
  present u (fc_hadith_id fd) (database w) = false ->
  keys_issued (database w) ->
  remove_favorite_by_hadith (fc_hadith_id fd) u (snd (add_favorite fd u w))
  = (Ok (mkAck "Favorite removed successfully"), sequence_moved 1 w)
  /\ favorites (database (sequence_moved 1 w)) = favorites (database w)
  /\ favorites_id_seq (database (sequence_moved 1 w))
     = favorites_id_seq (database w) + 1.
Proof.
  intros Hin Hp Hk. rewrite (add_absent fd u w Hin Hp Hk). cbn [snd].
  split; [|now split].
  rewrite remove_by_hadith_run.
  assert (Hnow : present u (fc_hadith_id fd)
                   (database (inserted u (fc_hadith_id fd) (fc_notes fd) w))
                 = true).
  { now apply present_snoc with (fc_notes fd)
      (favorites_id_seq (database w) + 1) (favorites (database w)). }
  destruct (present_filter _ _ _ Hnow) as (e & l & -> & _).
  f_equal. unfold set_favorites, sequence_moved, inserted, with_favorites.
  cbn [database favorites collections chapters hadiths favorites_id_seq
       random today].
  rewrite (delete_new_pair u (fc_hadith_id fd) _ _ Hp (same_pair_new _ _ _ _)).
  reflexivity.
Qed.

(** X13.  Two toggles of a present pair, on a store whose keys came
    from the sequence, leave the pair present in a new row: its key is
    the next of the sequence, the key of no row the table held, and
    its notes are empty. *)
Theorem toggle_twice_new_row (hadith_id : string) (u : Z) (w : World) :
  In hadith_id (map h_id (hadiths (database w))) ->
  keys_issued (database w) ->
  favorites_unique (database w) ->
  present u hadith_id (database w) = true ->
  exists e,
    In e (favorites (database w))
    /\ pair_of e = (u, hadith_id)
    /\ favorites
         (database
            (snd (toggle_favorite hadith_id u
                    (snd (toggle_favorite hadith_id u w)))))
       = Store.delete_where (fun f => f_id f =? f_id e)
           (favorites (database w))
         ++ [mkFavorite (favorites_id_seq (database w) + 1) u hadith_id None]
    /\ ~ In (favorites_id_seq (database w) + 1)
            (map f_id (favorites (database w))).
Proof.
  intros Hin Hk Hu Hp.
  destruct (toggle_present hadith_id u w Hin Hp)
    as (e & He & Hpe & Hsel & ->).
  exists e. split; [exact He|]. split; [exact Hpe|]. cbn [snd]. split.
  - pose proof (delete_selected_absent u hadith_id (database w) e Hu Hsel)
      as Hgone.
    rewrite toggle_absent; [reflexivity|exact Hin|exact Hgone|].
    intros f Hf. cbn in Hf. unfold Store.delete_where in Hf.
    apply filter_In in Hf as [Hf _]. cbn. now apply Hk.
  - apply key_not_in, issued_key_fresh, Hk.
Qed.

(* ----------------------------------------------------------------- *)
(** *** Removing *)

(** X14.  Under the primary key, [remove_favorite] called by the owner
    of a row removes that row and no other, and a second call with
    the same key answers 404 and writes nothing. *)
Theorem remove_favorite_exact (f : Favorite) (w : World) :
  NoDup (map f_id (favorites (database w))) ->
  In f (favorites (database w)) ->
  exists w',
    remove_favorite (f_id f) (f_user_id f) w
    = (Ok (mkAck "Favorite removed successfully"), w')
    /\ (forall x, In x (favorites (database w'))
                  <-> In x (favorites (database w)) /\ x <> f)
    /\ remove_favorite (f_id f) (f_user_id f) w'
       = (HTTPException 404 "Favorite not found", w').
Proof.
  intros Hpk Hf.
  destruct (owner_selects f _ Hf) as (e & l & Hsel).
  eexists. split; [|split].
  - rewrite remove_favorite_run. unfold select_favorites. rewrite Hsel.
    reflexivity.
  - intros x. cbn [database set_favorites favorites with_favorites].
    unfold Store.delete_where. rewrite filter_In. split.
    + intros [Hx Hn]. split; [exact Hx|]. intros ->.
      now rewrite Z.eqb_refl in Hn.
    + intros [Hx Hn]. split; [exact Hx|].
      destruct (Z.eqb_spec (f_id x) (f_id f)) as [Ek|_]; [|reflexivity].
      exfalso. apply Hn. exact (NoDup_map_eq f_id _ x f Hpk Hx Hf Ek).
  - rewrite remove_favorite_run. unfold select_favorites.
    cbn [database set_favorites favorites with_favorites].
    rewrite filter_none; [reflexivity|].
    intros x Hx. unfold Store.delete_where in Hx.
    apply filter_In in Hx as [_ Hx]. unfold owned.
    destruct (f_id x =? f_id f); [discriminate|reflexivity].
Qed.

(** X15.  [remove_favorite_by_hadith] answers 404 and writes nothing
    when the caller's pair is absent; otherwise the pair is absent
    afterwards and the presence of every other pair is as before. *)
Theorem remove_by_hadith_outcome (hadith_id : string) (u : Z) (w : World) :
  (present u hadith_id (database w) = false ->
   remove_favorite_by_hadith hadith_id u w
   = (HTTPException 404 "Hadith not in favorites", w))
  /\ (present u hadith_id (database w) = true ->
      exists w',
        remove_favorite_by_hadith hadith_id u w
        = (Ok (mkAck "Favorite removed successfully"), w')
        /\ present u hadith_id (database w') = false
        /\ forall u' h', (u', h') <> (u, hadith_id) ->
             present u' h' (database w') = present u' h' (database w)).
Proof.
  split; intros Hp.
  - rewrite remove_by_hadith_run. now rewrite (absent_filter u _ _ Hp).
  - destruct (present_filter u _ _ Hp) as (e & l & Hsel & _).
    eexists. split; [|split].
    + rewrite remove_by_hadith_run, Hsel. reflexivity.
    + unfold present.
      cbn [database set_favorites favorites with_favorites].
      unfold Store.delete_where.
      destruct (existsb _ _) eqn:Ex; [|reflexivity].
      apply existsb_exists in Ex as (x & Hx & Hs).
      apply filter_In in Hx as [_ Hx]. now rewrite Hs in Hx.
    + intros u' h' Hne. unfold present.
      cbn [database set_favorites favorites with_favorites].
      apply existsb_after_delete. intros x Hx.
      destruct (Store.same_pair u hadith_id x) eqn:Es; [|reflexivity].
      apply same_pair_iff in Hx, Es. congruence.
Qed.

(* ----------------------------------------------------------------- *)
(** *** Reading and updating one favorite *)

(** X16.  [get_favorite] returns no favorite and no 404, to the owner
    of a row as to anybody else: the select of
    [get_favorite_with_hadith] names a function the engine does not
    have, and the handler ends in the error of the engine, the world
    as it was. *)
Theorem get_favorite_raises (favorite_id u : Z) (w : World) :
  SQL.refused
    (SQL.where_ (SQL.select favorite_select_list favorite_tables)
       (SQL.And_
          [SQL.Eq (SQL.Col "favorites" "id") (SQL.Int favorite_id);
           SQL.Eq (SQL.Col "favorites" "user_id") (SQL.Int u)])) = true
  /\ get_favorite_with_hadith favorite_id u w = (Unhandled SQLError, w)
  /\ get_favorite favorite_id u w = (Unhandled SQLError, w).
Proof.
  split; [apply favorite_select_refused|].
  split; [apply favorite_with_hadith_run|apply get_favorite_run].
Qed.

(** X17.  Under the primary key, [update_favorite] called by the owner
    of a row writes the new notes on that row and then ends in the
    error of the engine instead of answering with the row; every
    other row is as before, and keys, owners and hadiths are those of
    before, in the same order. *)
Theorem update_favorite_owner (f : Favorite) (n : option string)
    (w : World) :
  NoDup (map f_id (favorites (database w))) ->
  In f (favorites (database w)) ->
  let f' := mkFavorite (f_id f) (f_user_id f) (f_hadith_id f) n in
  exists w',
    update_favorite (f_id f) n (f_user_id f) w = (Unhandled SQLError, w')
    /\ In f' (favorites (database w'))
    /\ (forall x, In x (favorites (database w)) -> x <> f ->
                  In x (favorites (database w')))
    /\ map f_id (favorites (database w'))
       = map f_id (favorites (database w))
    /\ map pair_of (favorites (database w'))
       = map pair_of (favorites (database w)).
Proof.
  intros Hpk Hf f'.
  destruct (owner_selects f _ Hf) as (e & l & Hsel).
  eexists. split; [|split; [|split; [|split]]].
  - rewrite update_favorite_run. unfold select_favorites. rewrite Hsel.
    reflexivity.
  - cbn. unfold Store.update_notes. apply in_map_iff.
    exists f. split; [|exact Hf]. now rewrite Z.eqb_refl.
  - intros x Hx Hne. cbn. unfold Store.update_notes.
    apply in_map_iff. exists x. split; [|exact Hx].
    destruct (Z.eqb_spec (f_id x) (f_id f)) as [Ek|_]; [|reflexivity].
    exfalso. apply Hne.
    exact (NoDup_map_eq f_id _ x f Hpk Hx Hf Ek).
  - cbn. apply update_notes_pairs.
  - cbn. apply update_notes_pairs.
Qed.

(* ----------------------------------------------------------------- *)
(** *** Across requests *)

(** X18.  Whatever a favorites request made for user [u] does, the
    favorites rows of every other user are afterwards exactly those of
    before, in the same order. *)
Theorem favorites_isolated (r : Request) (u : Z) (w : World) :
  NoDup (map f_id (favorites (database w))) ->
  requester r = Some u ->
  others u (favorites (database (serve r w)))
  = others u (favorites (database w)).
Proof.
  intros Hpk Hr. pose proof (serve_acts r w Hpk) as Ha.
  rewrite Hr in Ha. now apply others_after.
Qed.

(** X19.  The requests of the hadiths router leave the store and the
    calendar as they are; only the generator may have moved. *)
Theorem hadith_requests_read_only (r : Request) (w : World) :
  requester r = None ->
  database (serve r w) = database w /\ today (serve r w) = today w.
Proof.
  destruct r as [q c ch g n p s u|c p s g u|ch p s u|dp u|c g ex u
                |fd u|k u|k n u|k u|h u|h u];
    cbn [requester serve]; intros Hr; try discriminate Hr.
  - now rewrite <- (list_handler_world (AllHadiths q c ch g n) p s u w) at 2 4.
  - now rewrite <- (list_handler_world (ByCollection c g) p s u w) at 2 4.
  - now rewrite <- (list_handler_world (ByChapter ch) p s u w) at 2 4.
  - apply daily_keeps_store.
  - now rewrite random_run.
Qed.

(** X20.  In every store reached from one without favorites by
    serving requests, each favorite refers to a hadith of the store:
    the handlers look the hadith up before they insert. *)
Theorem reachable_favorites_ref (w : World) :
  reachable w -> favorites_ref (database w).
Proof.
  intros Hr. induction Hr as [w H0|w r Hr IH].
  - intros f Hf. rewrite H0 in Hf. destruct Hf.
  - apply serve_keeps_ref; [now apply reachable_keys|exact IH].
Qed.

(** X21.  [get_user_favorites] returns no page: it answers 422 for a
    page or page size out of bounds and otherwise ends in the error of
    the engine, whatever the count answered, because the listing
    select names a function the engine does not have; the world is
    left as it was. *)
Theorem user_favorites_outcome (p s : Z) (c : option string) (u : Z)
    (w : World) :
  (~ valid_page p s ->
   get_user_favorites p s c u w = (HTTPException 422 "validation error", w))
  /\ (valid_page p s ->
      get_user_favorites p s c u w = (Unhandled SQLError, w)).
Proof.
  split; [apply user_favorites_invalid|apply user_favorites_run].
Qed.

End MoreFavorites.

(* ================================================================= *)
(** ** The collections router *)

Section Collections.

Context {G : PRNG} {E : Engine}.

Lemma key_selects_row {A : Type} (key : A -> string) (l : list A) (x : A) :
  NoDup (map key l) -> In x l ->
  filter (fun y => String.eqb (key y) (key x)) l = [x].
Proof. apply filter_key_row. apply String.eqb_eq. Qed.

(** X23.  Under the primary key of [collections], [get_collection]
    answers 404 for an id no collection has and otherwise with exactly
    the collection of that id, without pagination data. *)
Theorem get_collection_outcome (collection_id : string) (w : World) :
  NoDup (map c_id (collections (database w))) ->
  (~ In collection_id (map c_id (collections (database w))) ->
   get_collection collection_id w
   = (HTTPException 404 "Collection not found", w))
  /\ (forall c, In c (collections (database w)) ->
                c_id c = collection_id ->
      get_collection collection_id w
      = (Ok (mkCollectionsResponse [c] None), w)).
Proof.
  intros Hn. split.
  - intros Hno. unfold get_collection, bind, fetch_one.
    now rewrite (filter_absent c_id _ _ Hno).
  - intros c Hc <-. unfold get_collection, bind, fetch_one.
    now rewrite (key_selects_row c_id _ c Hn Hc).
Qed.

(** X24.  Under the primary key of [chapters], [get_chapter] finds a
    chapter only under the collection it belongs to: asked under any
    other collection id, the chapter's id gets 404. *)
Theorem get_chapter_scoped (ch : Chapter) (w : World) :
  NoDup (map ch_id (chapters (database w))) ->
  In ch (chapters (database w)) ->
  get_chapter (ch_collection_id ch) (ch_id ch) w
  = (Ok (mkChaptersResponse [ch] None), w)
  /\ forall c, c <> ch_collection_id ch ->
       get_chapter c (ch_id ch) w
       = (HTTPException 404 "Chapter not found", w).
Proof.
  intros Hn Hch.
  assert (Hsplit : forall c,
    filter (fun x => String.eqb (ch_collection_id x) c
                     && String.eqb (ch_id x) (ch_id ch))
           (chapters (database w))
    = filter (fun x => String.eqb (ch_collection_id x) c) [ch]).
  { intros c. rewrite <- (key_selects_row ch_id _ ch Hn Hch).
    rewrite filter_twice. apply filter_ext. intros x. apply andb_comm. }
  split.
  - unfold get_chapter, bind, fetch_one. rewrite Hsplit. cbn [filter].
    now rewrite String.eqb_refl.
  - intros c Hc. unfold get_chapter, bind, fetch_one. rewrite Hsplit.
    cbn [filter].
    destruct (String.eqb_spec (ch_collection_id ch) c) as [Ec|_];
      [now elim Hc|reflexivity].
Qed.

Lemma chapters_of_numbers (c : string) (d : DB) :
  chapter_numbers_unique d ->
  NoDup (map ch_chapter_number (chapters_of c d)).
Proof.
  unfold chapter_numbers_unique, chapters_of.
  induction (chapters d) as [|x l IH]; intros Hn; [constructor|].
  cbn [map] in Hn. apply NoDup_cons_iff in Hn as [Hx Hn].
  cbn [filter]. destruct (String.eqb_spec (ch_collection_id x) c) as [Ec|_];
    [|now apply IH].
  cbn [map]. constructor; [|now apply IH].
  intros Hin. apply in_map_iff in Hin as (y & Ey & Hy).
  apply filter_In in Hy as [Hy Hc]. apply String.eqb_eq in Hc.
  apply Hx. apply in_map_iff. exists y. split; [|exact Hy].
  now rewrite Ey, Hc, Ec.
Qed.

(** Past the checks the handler counts, then fetches its page; the
    driver refuses an offset beyond 64 bits. *)
Lemma collection_chapters_run (c : string) (p s : Z) (w : World) :
  valid_page p s ->
  In c (map c_id (collections (database w))) ->
  get_collection_chapters c p s w
  = (if (p - 1) * s <=? max_bigint
     then (Ok (mkChaptersResponse
                 (window p s
                    (sort_by ch_chapter_number (chapters_of c (database w))))
                 (Some (meta_of p s
                          (Z.of_nat
                             (List.length (chapters_of c (database w))))))),
           w)
     else (Unhandled SQLError, w)).
Proof.
  intros Hv Hin. unfold get_collection_chapters, bind at 1.
  rewrite (validate_ok p s Hv). cbn [validate ret].
  unfold bind at 1, fetch_one.
  destruct (found_by_key c_id c _ Hin) as (x & r & ->).
  cbn [Store.fetch_one hd_error].
  unfold bind at 1, fetch_count. unfold bind, fetch_page.
  assert (Hs : (s <=? max_bigint) = true).
  { apply Z.leb_le. destruct Hv as [_ [_ Hs]]. unfold max_bigint. lia. }
  rewrite Hs. cbn [andb].
  now destruct ((p - 1) * s <=? max_bigint).
Qed.

(** X25.  [get_collection_chapters] answers 422 for a page or page
    size out of bounds and 404 for a collection that does not exist,
    both without effect, and ends in the error of the driver when the
    offset [(page - 1) * page_size] is beyond 64 bits.  Otherwise the
    page is cut from the chapters of that collection in ascending
    [chapter_number], strictly ascending when that number is unique
    within a collection, and [total_count] is the number of chapters
    of the collection. *)
Theorem collection_chapters_outcome (c : string) (p s : Z) (w : World) :
  (~ valid_page p s ->
   get_collection_chapters c p s w
   = (HTTPException 422 "validation error", w))
  /\ (valid_page p s ->
      ~ In c (map c_id (collections (database w))) ->
      get_collection_chapters c p s w
      = (HTTPException 404 "Collection not found", w))
  /\ (valid_page p s ->
      In c (map c_id (collections (database w))) ->
      max_bigint < (p - 1) * s ->
      get_collection_chapters c p s w = (Unhandled SQLError, w))
  /\ (valid_page p s ->
      In c (map c_id (collections (database w))) ->
      (p - 1) * s <= max_bigint ->
      exists rows,
        get_collection_chapters c p s w
        = (Ok (mkChaptersResponse (window p s rows)
                 (Some (meta_of p s
                          (Z.of_nat
                             (List.length (chapters_of c (database w))))))),
           w)
        /\ Permutation rows (chapters_of c (database w))
        /\ ascending ch_chapter_number rows
        /\ (forall ch, In ch (window p s rows) ->
              In ch (chapters (database w)) /\ ch_collection_id ch = c)
        /\ (chapter_numbers_unique (database w) ->
            StronglySorted
              (fun a b => ch_chapter_number a < ch_chapter_number b)
              (window p s rows))).
Proof.
  split; [|split; [|split]].
  - intros Hn. apply validate_bad in Hn.
    unfold get_collection_chapters, bind at 1. now rewrite Hn.
  - intros Hv Hno. unfold get_collection_chapters, bind at 1.
    rewrite (validate_ok p s Hv). cbn [validate ret].
    unfold bind at 1, fetch_one.
    now rewrite (filter_absent c_id _ _ Hno).
  - intros Hv Hin Hbig. rewrite (collection_chapters_run c p s w Hv Hin).
    destruct (Z.leb_spec ((p - 1) * s) max_bigint); [lia|reflexivity].
  - intros Hv Hin Hfit.
    exists (sort_by ch_chapter_number (chapters_of c (database w))).
    split; [|split; [|split; [|split]]].
    + rewrite (collection_chapters_run c p s w Hv Hin).
      destruct (Z.leb_spec ((p - 1) * s) max_bigint); [reflexivity|lia].
    + apply sort_by_perm.
    + apply sort_by_sorted.
    + intros ch Hch. apply in_window in Hch.
      apply (Permutation_in _ (sort_by_perm _ _ _)) in Hch.
      unfold chapters_of in Hch. apply filter_In in Hch as [Hch Hc].
      split; [exact Hch|now apply String.eqb_eq].
    + intros Hu. apply sorted_window, ascending_strict.
      * apply sort_by_sorted.
      * apply (Permutation_NoDup
                 (l := map ch_chapter_number (chapters_of c (database w)))).
        -- apply Permutation_map, Permutation_sym, sort_by_perm.
        -- now apply chapters_of_numbers.
Qed.

End Collections.

(* ================================================================= *)
(** ** The grade normalizer *)

Section NormalizerFacts.

Import Normalizer.

Lemma mapping_values (kv : string * string) :
  In kv grade_mapping -> exists g, snd kv = grade_value g.
Proof.
  unfold grade_mapping. intros H.
  repeat (destruct H as [<-|H]);
    [exists SAHIH|exists HASAN|exists DAIF|exists DAIF|exists MAWDU
    |exists UNKNOWN|destruct H]; reflexivity.
Qed.

Lemma normalize_grade_value (t : option string) :
  exists g, normalize_grade t = grade_value g.
Proof.
  unfold normalize_grade. destruct (truthy t) as [s|]; [|exists UNKNOWN; reflexivity].
  cbn zeta.
  destruct (find (fun kv => String.eqb _ _) grade_mapping) as [kv|] eqn:E1.
  - apply find_some in E1 as [Hin _]. now apply mapping_values.
  - destruct (find (fun kv => occurs_in _ _) grade_mapping) as [kv|] eqn:E2;
      [|exists UNKNOWN; reflexivity].
    apply find_some in E2 as [Hin _]. now apply mapping_values.
Qed.

(** X26.  [normalize_grade] always returns one of the five values of
    [HadithGrade], and returns each of these values unchanged:
    normalizing twice is normalizing once. *)
Theorem normalize_grade_canonical (t : option string) :
  (exists g, normalize_grade t = grade_value g)
  /\ normalize_grade (Some (normalize_grade t)) = normalize_grade t.
Proof.
  split; [apply normalize_grade_value|].
  destruct (normalize_grade_value t) as [g ->].
  destruct g; vm_compute; reflexivity.
Qed.

Lemma occurs_in_empty (key : string) :
  occurs_in key "" = true -> key = "".
Proof.
  cbn. rewrite orb_false_r. now destruct key.
Qed.

(** X27.  A grade text in which "sahih" occurs, in any letter case, is
    normalized to "Sahih" whatever else it says: the first key of the
    mapping wins. *)
Theorem normalize_grade_sahih_first (t : string) :
  occurs_in "sahih" (strip (lower t)) = true ->
  normalize_grade (Some t) = "Sahih".
Proof.
  intros Hocc. unfold normalize_grade, truthy.
  destruct (String.eqb_spec t "") as [->|_].
  { cbn in Hocc. discriminate Hocc. }
  cbn zeta. set (gl := strip (lower t)) in *.
  unfold grade_mapping. cbn [find fst snd].
  destruct (String.eqb_spec "sahih" gl) as [_|_]; [reflexivity|].
  destruct (String.eqb_spec "hasan" gl) as [E|_];
    [rewrite <- E in Hocc; discriminate Hocc|].
  destruct (String.eqb_spec "da'if" gl) as [E|_];
    [rewrite <- E in Hocc; discriminate Hocc|].
  destruct (String.eqb_spec "daif" gl) as [E|_];
    [rewrite <- E in Hocc; discriminate Hocc|].
  destruct (String.eqb_spec "mawdu" gl) as [E|_];
    [rewrite <- E in Hocc; discriminate Hocc|].
  destruct (String.eqb_spec "unknown" gl) as [E|_];
    [rewrite <- E in Hocc; discriminate Hocc|].
  now rewrite Hocc.
Qed.

End NormalizerFacts.

(* ================================================================= *)
(** ** The routes of the minimal server *)

Section SimpleServerFacts.

Import SimpleServer.

(** A pattern of literals matches one path only. *)
Lemma matches_literals (ls path : list string)
    (params : list (string * string)) :
  matches (map Lit ls) path = Some params -> path = ls.
Proof.
  revert path params.
  induction ls as [|l ls IH]; intros path params; cbn [map matches].
  - now destruct path.
  - destruct path as [|x path]; [discriminate|].
    destruct (String.eqb_spec l x) as [->|_]; [|discriminate].
    intros Hm. f_equal. now apply IH with params.
Qed.

(** What the router answers with was registered, and its pattern
    matches. *)
Lemma first_match_registered (table : list (list Segment * Endpoint))
    (path : list string) (endpoint : Endpoint)
    (params : list (string * string)) :
  first_match table path = Some (endpoint, params) ->
  exists pattern,
    In (pattern, endpoint) table /\ matches pattern path = Some params.
Proof.
  induction table as [|[pattern e] table IH]; cbn [first_match];
    [discriminate|].
  destruct (matches pattern path) as [ps|] eqn:Em.
  - intros Hf. injection Hf as -> ->. exists pattern. split; [now left|exact Em].
  - intros Hf. destruct (IH Hf) as (pattern' & Hin & Hm).
    exists pattern'. split; [now right|exact Hm].
Qed.

(** X28.  In [simple_server.py] the route of [get_hadith], with its
    path parameter, is registered before the routes of the daily and
    the random hadith: a request for [/api/v1/hadiths/daily] or
    [/api/v1/hadiths/random] is served by [get_hadith] with the word
    as hadith id, and no path reaches [get_daily_hadith] or
    [get_random_hadith]. *)
Theorem daily_route_shadowed :
  dispatch ["api"; "v1"; "hadiths"; "daily"]
  = Some (get_hadith, [("hadith_id", "daily")])
  /\ dispatch ["api"; "v1"; "hadiths"; "random"]
     = Some (get_hadith, [("hadith_id", "random")])
  /\ forall path params,
       dispatch path <> Some (get_daily_hadith, params)
       /\ dispatch path <> Some (get_random_hadith, params).
Proof.
  split; [reflexivity|]. split; [reflexivity|].
  intros path params. split; intros Hd;
    destruct (first_match_registered _ _ _ _ Hd) as (pattern & Hin & Hm);
    cbn in Hin;
    repeat (destruct Hin as [Hin|Hin]; [try discriminate Hin|]);
    try contradiction;
    injection Hin as <-.
  - apply (matches_literals ["api"; "v1"; "hadiths"; "daily"]) in Hm.
    subst path. discriminate Hd.
  - apply (matches_literals ["api"; "v1"; "hadiths"; "random"]) in Hm.
    subst path. discriminate Hd.
Qed.

End SimpleServerFacts.

(* ================================================================= *)
(** * Part V: the properties on concrete requests *)

Section Runs.

Import Sample.

Ltac distinct :=
  cbn; repeat (apply NoDup_cons; [cbn; intuition discriminate|]);
  apply NoDup_nil.

Ltac among :=
  let h := fresh "h" in
  intros h; cbn; intuition (subst; cbn; auto).

Ltac issued :=
  let f := fresh "f" in
  intros f; cbn; intuition (subst; cbn; lia).

Lemma db0_wf : db_wf db0.
Proof.
  constructor;
    [distinct|distinct|distinct|among|among|distinct
    |unfold favorites_unique; distinct].
Qed.

Lemma db1_wf : db_wf db1.
Proof.
  constructor;
    [distinct|distinct|distinct|among|among|distinct
    |unfold favorites_unique; distinct].
Qed.

Lemma db3_wf : db_wf db3.
Proof.
  constructor;
    [distinct|distinct|distinct|among|among|distinct
    |unfold favorites_unique; distinct].
Qed.

Lemma db0_keys : keys_issued db0.
Proof. issued. Qed.

Lemma db1_keys : keys_issued db1.
Proof. issued. Qed.

Lemma db3_keys : keys_issued db3.
Proof. issued. Qed.

Lemma page_1_20 : valid_page 1 20.
Proof. unfold valid_page. lia. Qed.

Example strptime_iso :
  Calendar.strptime "2024-01-15" = Some jan15.
Proof. reflexivity. Qed.

Example strptime_rejects :
  Calendar.strptime "15/01/2024" = None
  /\ Calendar.strptime "2024-02-30" = None.
Proof. split; reflexivity. Qed.

Example daily_count_refused :
  SQL.refused
    (SQL.count_of (build_hadith_query None None [("grade", "Sahih")])) = true.
Proof. reflexivity. Qed.

(** *** The claims *)

(** Two callers ask for the hadith of 15 January 2024, on the sample
    store with its two Sahih hadiths. *)
Lemma daily_pick_returns_no_hadith_run :
  fst (get_daily_hadith (Some "2024-01-15") None world0)
  = Unhandled SQLError
  /\ fst (get_daily_hadith (Some "2024-01-15") (Some 7) world0')
     = Unhandled SQLError
  /\ database (snd (get_daily_hadith (Some "2024-01-15") None world0))
     = db0
  /\ database (snd (get_daily_hadith (Some "2024-01-15") (Some 7) world0'))
     = db0.
Proof.
  apply (daily_pick_returns_no_hadith "2024-01-15" jan15 None (Some 7)
           world0 world0').
  - discriminate.
  - reflexivity.
Defined.

Lemma daily_pick_stops_at_count_run :
  SQL.refused
    (SQL.count_of (build_hadith_query None (Some 7) [("grade", "Sahih")]))
  = true
  /\ get_daily_hadith (Some "2025-03-03") (Some 7) world0
     = (Unhandled SQLError, reseeded mar03 world0).
Proof.
  apply (daily_pick_stops_at_count (Some "2025-03-03") mar03 (Some 7) world0).
  reflexivity.
Defined.

(** The first page of twenty, of everything and of one collection. *)
Lemma list_page_raises_run :
  list_handler (AllHadiths None None None None None) 1 20 None world0
  = (Unhandled SQLError, world0)
  /\ list_handler (ByCollection "riyad" (Some SAHIH)) 1 20 (Some 7) world1
     = (Unhandled SQLError, world1).
Proof.
  split.
  - apply (list_page_raises (AllHadiths None None None None None) 1 20 None
             world0); [exact page_1_20|exact I].
  - apply (list_page_raises (ByCollection "riyad" (Some SAHIH)) 1 20 (Some 7)
             world1); [exact page_1_20|cbn; auto].
Defined.

(** A page far beyond the last is no empty page either. *)
Example list_page_beyond_last :
  fst (list_handler (AllHadiths None None None None None) 5 20 None world0)
  = Unhandled SQLError.
Proof. now rewrite list_refused; [|unfold valid_page; lia|exact I]. Qed.

(** From two unrelated states of the generator, the daily call of one
    date leaves the same generator behind. *)
Lemma daily_seeds_the_shared_generator_run :
  let after1 := snd (get_daily_hadith (Some "2024-01-15") None world0) in
  let after2 := snd (get_daily_hadith (Some "2024-01-15") None world0') in
  random world0 <> random world0'
  /\ random after1 = seed (Calendar.toordinal jan15)
  /\ random after2 = seed (Calendar.toordinal jan15)
  /\ (forall a b,
        fst (random_randint a b after1)
        = Ok (fst (randint a b (seed (Calendar.toordinal jan15))))
        /\ fst (random_randint a b after2)
           = Ok (fst (randint a b (seed (Calendar.toordinal jan15)))))
  /\ get_random_hadith None None false None after1
     = (Unhandled SQLError, after1)
  /\ get_random_hadith None None false None after2
     = (Unhandled SQLError, after2).
Proof.
  split; [vm_compute; discriminate|].
  apply (daily_seeds_the_shared_generator "2024-01-15" jan15 None None
           world0 world0' None None false).
  - discriminate.
  - reflexivity.
Defined.

(** User 7, who has marked [riyad-1], toggles [riyad-2] and toggles
    [riyad-1]. *)
Lemma toggle_flips_without_answer_run :
  fst (toggle_favorite "riyad-2" 7 world1) = Unhandled SQLError
  /\ favorites (database (snd (toggle_favorite "riyad-2" 7 world1)))
     = [mkFavorite 1 7 "riyad-1" None; mkFavorite 2 7 "riyad-2" None]
  /\ fst (toggle_favorite "riyad-1" 7 world1)
     = Unhandled ResponseValidationError
  /\ present 7 "riyad-1"
       (database (snd (toggle_favorite "riyad-1" 7 world1))) = false
  /\ present 7 "riyad-1"
       (database
          (snd (toggle_favorite "riyad-1" 7
                  (snd (toggle_favorite "riyad-1" 7 world1))))) = true.
Proof.
  assert (Hin : forall h, In h ["riyad-1"; "riyad-2"] ->
                In h (map h_id (hadiths (database world1)))).
  { intros h [<-|[<-|[]]]; cbn; auto. }
  pose proof (toggle_flips_without_answer "riyad-2" 7 world1
                (Hin _ (or_intror (or_introl eq_refl))) db1_keys
                (wf_favorites_unique _ db1_wf)) as Hnew.
  pose proof (toggle_flips_without_answer "riyad-1" 7 world1
                (Hin _ (or_introl eq_refl)) db1_keys
                (wf_favorites_unique _ db1_wf)) as Hold.
  cbv zeta in Hnew, Hold.
  destruct Hnew as (Habs & _ & _). destruct (Habs eq_refl) as (E1 & E2 & _).
  destruct Hold as (_ & Hpres & Htwice).
  destruct (Hpres eq_refl) as (E3 & _ & E4).
  split; [exact E1|]. split; [exact E2|]. split; [exact E3|].
  split; [exact E4|exact Htwice].
Defined.

Lemma favorites_pair_unique_run :
  favorites_unique
    (database
       (serve (ToggleFavorite "riyad-1" 7)
          (serve (AddFavorite (mkFavoriteCreate "riyad-1" None) 7) world0))).
Proof.
  apply (proj1 (favorites_pair_unique _)).
  apply reachable_serve, reachable_serve, reachable_start. reflexivity.
Defined.



Lemma add_remove_check_start_run :
  add_favorite (mkFavoriteCreate "riyad-1" None) 7 world1
  = (HTTPException 400 "Hadith already in favorites", world1)
  /\ remove_favorite_by_hadith "bukhari-1" 7 world1
     = (HTTPException 404 "Hadith not in favorites", world1).
Proof.
  destruct (add_remove_check_start (mkFavoriteCreate "riyad-1" None)
              "bukhari-1" 7 world1) as [Hadd Hrem].
  split.
  - apply Hadd; [cbn; auto|reflexivity].
  - apply Hrem. reflexivity.
Defined.

(** User 8 addresses the favorite of user 7. *)
Lemma favorite_by_key_other_user_run :
  get_favorite 1 8 world1 = (Unhandled SQLError, world1)
  /\ update_favorite 1 (Some "mine now") 8 world1
     = (HTTPException 404 "Favorite not found", world1)
  /\ remove_favorite 1 8 world1
     = (HTTPException 404 "Favorite not found", world1).
Proof.
  apply (favorite_by_key_other_user (mkFavorite 1 7 "riyad-1" None) 8
           (Some "mine now") world1).
  - apply db1_wf.
  - cbn. auto.
  - cbn. lia.
Defined.

(** *** The further properties *)

Lemma list_handler_checks_run :
  list_handler (AllHadiths None None None None None) 0 20 None world0
  = (HTTPException 422 "validation error", world0)
  /\ list_handler (ByCollection "muslim" None) 1 20 None world0
     = (HTTPException 404 "Collection not found", world0)
  /\ list_handler (ByChapter "riyad-ch9") 1 20 None world0
     = (HTTPException 404 "Chapter not found", world0).
Proof.
  split; [|split].
  - apply (proj1 (list_handler_checks (AllHadiths None None None None None)
                    0 20 None world0)).
    unfold valid_page. lia.
  - apply (proj2 (list_handler_checks (ByCollection "muslim" None)
                    1 20 None world0)); [exact page_1_20|].
    cbn. intuition discriminate.
  - apply (proj2 (list_handler_checks (ByChapter "riyad-ch9")
                    1 20 None world0)); [exact page_1_20|].
    cbn. intuition discriminate.
Defined.

(** User 7 adds [riyad-1] with a note: the row is there, the answer is
    not. *)
Lemma add_favorite_outcome_run :
  add_favorite (mkFavoriteCreate "riyad-9" None) 7 world0
  = (HTTPException 404 "Hadith not found", world0)
  /\ fst (add_favorite (mkFavoriteCreate "riyad-1" (Some "niyya")) 7 world0)
     = Unhandled SQLError
  /\ favorites
       (database
          (snd (add_favorite (mkFavoriteCreate "riyad-1" (Some "niyya")) 7
                  world0)))
     = [mkFavorite 1 7 "riyad-1" (Some "niyya")]
  /\ fst (add_favorite (mkFavoriteCreate "riyad-1" (Some "niyya")) 7
            (snd (add_favorite (mkFavoriteCreate "riyad-1" (Some "niyya")) 7
                    world0)))
     = HTTPException 400 "Hadith already in favorites".
Proof.
  destruct (add_favorite_outcome (mkFavoriteCreate "riyad-9" None) 7 world0)
    as (H404 & _ & _).
  destruct (add_favorite_outcome (mkFavoriteCreate "riyad-1" (Some "niyya"))
              7 world0) as (_ & _ & Hnew).
  split; [apply H404; cbn; intuition discriminate|].
  destruct Hnew as [E1 E2]; [cbn; auto|reflexivity|exact db0_keys|].
  rewrite E1. cbn [fst snd]. rewrite E2. now repeat split.
Defined.

Lemma add_then_remove_moves_sequence_run :
  remove_favorite_by_hadith "riyad-1" 7
    (snd (add_favorite (mkFavoriteCreate "riyad-1" None) 7 world0))
  = (Ok (mkAck "Favorite removed successfully"), sequence_moved 1 world0)
  /\ favorites (database (sequence_moved 1 world0)) = []
  /\ favorites_id_seq (database (sequence_moved 1 world0)) = 1.
Proof.
  apply (add_then_remove_moves_sequence (mkFavoriteCreate "riyad-1" None) 7
           world0).
  - cbn. auto.
  - reflexivity.
  - exact db0_keys.
Defined.

(** In the store where key 3 has come and gone, user 7 toggles
    [riyad-1] twice: the pair comes back under key 4. *)
Lemma toggle_twice_new_row_run :
  favorites
    (database
       (snd (toggle_favorite "riyad-1" 7
               (snd (toggle_favorite "riyad-1" 7 world3)))))
  = [mkFavorite 2 8 "riyad-2" (Some "read"); mkFavorite 4 7 "riyad-1" None].
Proof.
  destruct (toggle_twice_new_row "riyad-1" 7 world3)
    as (e & He & Hpe & -> & _).
  - cbn. auto.
  - exact db3_keys.
  - apply db3_wf.
  - reflexivity.
  - cbn in He. destruct He as [<-|[<-|[]]]; [reflexivity|discriminate Hpe].
Defined.

Lemma remove_favorite_exact_run :
  exists w',
    remove_favorite 2 8 world3
    = (Ok (mkAck "Favorite removed successfully"), w')
    /\ (forall x, In x (favorites (database w'))
                  <-> In x (favorites (database world3))
                      /\ x <> mkFavorite 2 8 "riyad-2" (Some "read"))
    /\ remove_favorite 2 8 w'
       = (HTTPException 404 "Favorite not found", w').
Proof.
  apply (remove_favorite_exact (mkFavorite 2 8 "riyad-2" (Some "read"))
           world3).
  - apply db3_wf.
  - cbn. auto.
Defined.

Lemma remove_by_hadith_outcome_run :
  remove_favorite_by_hadith "riyad-2" 7 world3
  = (HTTPException 404 "Hadith not in favorites", world3)
  /\ exists w',
       remove_favorite_by_hadith "riyad-2" 8 world3
       = (Ok (mkAck "Favorite removed successfully"), w')
       /\ present 8 "riyad-2" (database w') = false
       /\ present 7 "riyad-1" (database w') = true.
Proof.
  split.
  - apply (remove_by_hadith_outcome "riyad-2" 7 world3). reflexivity.
  - destruct (remove_by_hadith_outcome "riyad-2" 8 world3) as [_ H].
    destruct (H eq_refl) as (w' & Ew & Hgone & Hframe).
    exists w'. split; [exact Ew|]. split; [exact Hgone|].
    rewrite (Hframe 7 "riyad-1"); [reflexivity|discriminate].
Defined.

Lemma update_favorite_owner_run :
  exists w',
    update_favorite 2 (Some "learn") 8 world3 = (Unhandled SQLError, w')
    /\ favorites (database w')
       = [mkFavorite 1 7 "riyad-1" None;
          mkFavorite 2 8 "riyad-2" (Some "learn")].
Proof.
  destruct (update_favorite_owner (mkFavorite 2 8 "riyad-2" (Some "read"))
              (Some "learn") world3) as (w' & Ew & _).
  - apply db3_wf.
  - cbn. auto.
  - exists w'. split; [exact Ew|].
    rewrite update_favorite_run in Ew. cbn in Ew.
    injection Ew as <-. reflexivity.
Defined.

Lemma favorites_isolated_run :
  others 8 (favorites (database (serve (ToggleFavorite "riyad-2" 8) world3)))
  = [mkFavorite 1 7 "riyad-1" None]
  /\ others 8
       (favorites
          (database
             (serve (AddFavorite (mkFavoriteCreate "riyad-1" None) 8)
                world3)))
     = [mkFavorite 1 7 "riyad-1" None].
Proof.
  split.
  - rewrite (favorites_isolated (ToggleFavorite "riyad-2" 8) 8 world3).
    + reflexivity.
    + apply db3_wf.
    + reflexivity.
  - rewrite (favorites_isolated
               (AddFavorite (mkFavoriteCreate "riyad-1" None) 8) 8 world3).
    + reflexivity.
    + apply db3_wf.
    + reflexivity.
Defined.

Lemma hadith_requests_read_only_run :
  database (serve (GetDailyHadith (Some "2024-01-15") (Some 7)) world3)
  = database world3
  /\ today (serve (GetDailyHadith (Some "2024-01-15") (Some 7)) world3)
     = today world3.
Proof.
  apply (hadith_requests_read_only
           (GetDailyHadith (Some "2024-01-15") (Some 7)) world3).
  reflexivity.
Defined.

Lemma reachable_favorites_ref_run :
  let w :=
    serve (UpdateFavorite 1 (Some "first") 7)
      (serve (AddFavorite (mkFavoriteCreate "bukhari-1" None) 7) world0) in
  favorites (database w) = [mkFavorite 1 7 "bukhari-1" (Some "first")]
  /\ favorites_ref (database w).
Proof.
  split; [vm_compute; reflexivity|].
  apply (reachable_favorites_ref
           (serve (UpdateFavorite 1 (Some "first") 7)
              (serve (AddFavorite (mkFavoriteCreate "bukhari-1" None) 7)
                 world0))).
  apply reachable_serve, reachable_serve, reachable_start. reflexivity.
Defined.

Lemma user_favorites_outcome_run :
  get_user_favorites 1 0 None 7 world1
  = (HTTPException 422 "validation error", world1)
  /\ get_user_favorites 1 20 (Some "riyad") 7 world1
     = (Unhandled SQLError, world1).
Proof.
  split.
  - apply (proj1 (user_favorites_outcome 1 0 None 7 world1)).
    unfold valid_page. lia.
  - apply (proj2 (user_favorites_outcome 1 20 (Some "riyad") 7 world1)).
    exact page_1_20.
Defined.

Lemma get_collection_outcome_run :
  get_collection "muslim" world0
  = (HTTPException 404 "Collection not found", world0)
  /\ get_collection "bukhari" world0
     = (Ok (mkCollectionsResponse [bukhari] None), world0).
Proof.
  assert (Hpk : NoDup (map c_id (collections (database world0))))
    by apply db0_wf.
  split.
  - apply (get_collection_outcome "muslim" world0 Hpk).
    cbn. intuition discriminate.
  - apply (get_collection_outcome "bukhari" world0 Hpk);
      [cbn; auto|reflexivity].
Defined.

Lemma get_chapter_scoped_run :
  get_chapter "riyad" "riyad-ch1" world0
  = (Ok (mkChaptersResponse [riyad_ch1] None), world0)
  /\ get_chapter "bukhari" "riyad-ch1" world0
     = (HTTPException 404 "Chapter not found", world0).
Proof.
  destruct (get_chapter_scoped riyad_ch1 world0) as [Hown Hother].
  - apply db0_wf.
  - cbn. auto.
  - split; [exact Hown|]. apply Hother. discriminate.
Defined.

(** A page size of 101, an unknown collection, page ten to the
    seventeenth, and the first page of the two chapters of [riyad]. *)
Lemma collection_chapters_outcome_run :
  get_collection_chapters "riyad" 1 101 world0
  = (HTTPException 422 "validation error", world0)
  /\ get_collection_chapters "muslim" 1 20 world0
     = (HTTPException 404 "Collection not found", world0)
  /\ get_collection_chapters "riyad" 100000000000000000 100 world0
     = (Unhandled SQLError, world0)
  /\ exists rows,
       get_collection_chapters "riyad" 1 20 world0
       = (Ok (mkChaptersResponse (window 1 20 rows)
                (Some (meta_of 1 20 2))), world0)
       /\ Permutation rows [riyad_ch2; riyad_ch1]
       /\ StronglySorted
            (fun a b => ch_chapter_number a < ch_chapter_number b)
            (window 1 20 rows).
Proof.
  destruct (collection_chapters_outcome "riyad" 1 101 world0)
    as (H422 & _ & _ & _).
  destruct (collection_chapters_outcome "muslim" 1 20 world0)
    as (_ & H404 & _ & _).
  destruct (collection_chapters_outcome "riyad" 100000000000000000 100
              world0) as (_ & _ & Hbig & _).
  destruct (collection_chapters_outcome "riyad" 1 20 world0)
    as (_ & _ & _ & Hok).
  split; [apply H422; unfold valid_page; lia|].
  split; [apply H404; [exact page_1_20|cbn; intuition discriminate]|].
  split.
  { apply Hbig; [unfold valid_page; lia|cbn; auto|unfold max_bigint; lia]. }
  destruct (Hok page_1_20) as (rows & Er & Hp & _ & _ & Hs);
    [cbn; auto|unfold max_bigint; lia|].
  exists rows. split; [exact Er|]. split; [exact Hp|].
  apply Hs. unfold chapter_numbers_unique. distinct.
Defined.

(** "hasan sahih", in capitals and with blanks around, becomes Sahih. *)
Lemma normalize_grade_sahih_first_run :
  Normalizer.normalize_grade (Some "  Hasan SAHIH ") = "Sahih".
Proof.
  apply (normalize_grade_sahih_first "  Hasan SAHIH "). reflexivity.
Defined.

End Runs.
